(** * ProtectedClass: a shallow embedding of [protectedclass.py]

    The module under study simulates "protected" attributes on a Python
    object by renaming keys of the instance dictionary between the
    spellings [name] and [_name].  The embedding below follows the source
    function by function: the naming utilities are pure functions on
    strings, the instance is its [__dict__] (an insertion-ordered
    dictionary) together with what was printed, and every method is a
    computation in a small state-and-exception monad.

    Scope of the model.  Attribute names are strings, and the values
    stored are data ([None], strings, integers), none of them callable.
    A call [self.m(...)] looks [m] up on the instance first: a key [m]
    of the instance dictionary hides the method of the class, and
    calling the value stored there raises [TypeError].  The reflection
    of [_getforbiddenlist] over [dir()] is taken from a description of
    the concrete class, a parameter of the methods. *)

From Stdlib Require Import String Ascii List Bool Arith ZArith Lia.
Import ListNotations.
Local Open Scope list_scope.
Local Open Scope string_scope.

(* ================================================================= *)
(** ** Python strings *)

Module PyStr.

(** [s.startswith(p)] *)
Definition startswith (s p : string) : bool := String.prefix p s.

(** [s[n:]] *)
Fixpoint drop (n : nat) (s : string) : string :=
  match n, s with
  | O, _ => s
  | S n', String _ s' => drop n' s'
  | S _, EmptyString => EmptyString
  end.

(** [s.endswith(p)]: the last [len(p)] characters of [s] are [p]. *)
Definition endswith (s p : string) : bool :=
  (String.length p <=? String.length s)%nat
  && String.eqb (drop (String.length s - String.length p) s) p.

(** [s.removeprefix(p)] *)
Definition removeprefix (s p : string) : string :=
  if startswith s p then drop (String.length p) s else s.

(** [s.lstrip(c)] for a one-character set [c]. *)
Fixpoint lstrip (c : ascii) (s : string) : string :=
  match s with
  | EmptyString => EmptyString
  | String a s' => if Ascii.eqb a c then lstrip c s' else s
  end.

(** [s.rstrip(c)] for a one-character set [c]. *)
Fixpoint rstrip (c : ascii) (s : string) : string :=
  match s with
  | EmptyString => EmptyString
  | String a s' =>
      match rstrip c s' with
      | EmptyString => if Ascii.eqb a c then EmptyString
                       else String a EmptyString
      | r => String a r
      end
  end.

End PyStr.

Definition underscore : ascii := "_"%char.

(** [attr.lstrip('_').rstrip('_')], the expression shared by
    [_hasprotectedattr], [_hasunprotectedattr] and [_isforbidden]. *)
Definition strip_underscores (attr : string) : string :=
  PyStr.rstrip underscore (PyStr.lstrip underscore attr).

(* ================================================================= *)
(** ** Values, exceptions, printed lines *)

Inductive value : Type :=
| PyNone
| PyString (s : string)
| PyInt (z : Z).

Inductive exn : Type :=
| DunderAttributeError
| KeyError (key : string)
| TypeError.

(** What the methods print, one constructor per [print] call of the
    source, carrying the data the message is formatted from. *)
Inductive line : Type :=
| DelattrUnableToDelete (key : string)
| DelattrWentWrong (e : exn) (key : string)
| UpdateattrException (oldname newname : string) (e : exn)
| SomethingWentWrong (e : exn).

Inductive outcome (A : Type) : Type :=
| Return (a : A)
| Raise (e : exn).
Arguments Return {A} a.
Arguments Raise {A} e.

(* ================================================================= *)
(** ** Naming utilities (module level functions) *)

Definition is_dunder_prefix (s : string) : bool := PyStr.startswith s "__".

Definition is_dunder_suffix (s : string) : bool := PyStr.endswith s "__".

Definition is_dunder_attrib (s : string) : bool :=
  is_dunder_prefix s && is_dunder_suffix s.

Definition make_protected_name_prefix (name : string) (ignore : bool)
  : outcome string :=
  if ignore && (2 <? String.length name)%nat then
    if PyStr.startswith name "__" then Raise DunderAttributeError
    else Return ("_" ++ name)
  else Return ("_" ++ name).

Definition undo_protected_name_prefix (name : string) : string :=
  if PyStr.startswith name "_" then PyStr.removeprefix name "_" else name.

Definition is_protected_name_prefix (name : string) : bool :=
  PyStr.startswith name "_".

(* ================================================================= *)
(** ** The instance dictionary

    A Python [dict] keeps its keys in insertion order: assigning to a key
    that is present replaces the value in place, assigning to a new key
    appends it, and [del] removes the entry.  Keys are unique. *)

Definition pydict : Type := list (string * value).

Fixpoint dict_get (d : pydict) (k : string) : option value :=
  match d with
  | [] => None
  | (k', v) :: d' => if String.eqb k' k then Some v else dict_get d' k
  end.

(** [k in d] *)
Definition dict_contains (d : pydict) (k : string) : bool :=
  match dict_get d k with Some _ => true | None => false end.

(** [d[k] = v] *)
Fixpoint dict_set (d : pydict) (k : string) (v : value) : pydict :=
  match d with
  | [] => [(k, v)]
  | (k', v') :: d' =>
      if String.eqb k' k then (k, v) :: d' else (k', v') :: dict_set d' k v
  end.

(** The dictionary left by a successful [del d[k]]: the entry of [k] is
    dropped and the order of the others is kept. *)
Definition dict_remove (d : pydict) (k : string) : pydict :=
  filter (fun kv => negb (String.eqb (fst kv) k)) d.

(** [d.keys()] *)
Definition dict_keys (d : pydict) : list string := map fst d.

(* ================================================================= *)
(** ** Instances and the monad of methods *)

Record instance : Type := Instance {
  __dict__ : pydict;
  stdout : list line
}.

(** A freshly allocated object, before [__init__] runs. *)
Definition new_instance : instance := Instance [] [].

Definition M (A : Type) : Type := instance -> outcome A * instance.

Definition ret {A} (a : A) : M A := fun s => (Return a, s).

Definition bind {A B} (c : M A) (k : A -> M B) : M B :=
  fun s => match c s with
           | (Return a, s') => k a s'
           | (Raise e, s') => (Raise e, s')
           end.

Definition raise {A} (e : exn) : M A := fun s => (Raise e, s).

(** [try: c  except Exception as e: h e] *)
Definition try_except {A} (c : M A) (h : exn -> M A) : M A :=
  fun s => match c s with
           | (Return a, s') => (Return a, s')
           | (Raise e, s') => h e s'
           end.

Definition lift {A} (o : outcome A) : M A := fun s => (o, s).

Definition gets {A} (f : instance -> A) : M A := fun s => (Return (f s), s).

Definition print (l : line) : M unit :=
  fun s => (Return tt, Instance (__dict__ s) (stdout s ++ [l])%list).

Declare Scope pymonad_scope.
Delimit Scope pymonad_scope with py.
Notation "x <- c ;; k" := (bind c (fun x => k))
  (at level 61, c at next level, right associativity) : pymonad_scope.
Notation "c ;; k" := (bind c (fun _ => k))
  (at level 61, right associativity) : pymonad_scope.
Local Open Scope pymonad_scope.

(** [for x in xs: body x] *)
Fixpoint for_each {A} (xs : list A) (body : A -> M unit) : M unit :=
  match xs with
  | [] => ret tt
  | x :: xs' => body x ;; for_each xs' body
  end.

(** [self.__dict__[k]] *)
Definition getitem (k : string) : M value :=
  fun s => match dict_get (__dict__ s) k with
           | Some v => (Return v, s)
           | None => (Raise (KeyError k), s)
           end.

(** [self.__dict__[k] = v] *)
Definition setitem (k : string) (v : value) : M unit :=
  fun s => (Return tt, Instance (dict_set (__dict__ s) k v) (stdout s)).

(** [del self.__dict__[k]] *)
Definition delitem (k : string) : M unit :=
  fun s => if dict_contains (__dict__ s) k
           then (Return tt, Instance (dict_remove (__dict__ s) k) (stdout s))
           else (Raise (KeyError k), s).

(* ================================================================= *)
(** ** class ProtectedClass *)

(** [self.name(...)].  The methods are plain functions of the class, so
    the instance dictionary is searched first: when it holds the key
    [name], the value stored there is what gets called, and it is not
    callable. *)
Definition self_call {A} (name : string) (method : M A) : M A :=
  fun s => if dict_contains (__dict__ s) name then (Raise TypeError, s)
           else method s.

Section ProtectedClass.

(** What [dir(type(self))] lists for the concrete class, each name with
    whether [getattr(type(self), name)] is callable.  This is the only
    thing the methods learn from the class by reflection. *)
Variable type_dir : list (string * bool).

Definition dir_type : list string := map fst type_dir.

(** [dir(self)]: the instance dictionary's keys and the class's names. *)
Definition dir_self (s : instance) : list string :=
  (dict_keys (__dict__ s) ++ dir_type)%list.

Definition callable_on_type (name : string) : bool :=
  match find (fun m => String.eqb (fst m) name) type_dir with
  | Some m => snd m
  | None => false
  end.

Definition __setattr__ (attr : string) (v : value) : M unit :=
  setitem attr v.

Definition _getforbiddenlist (s : instance) : list string :=
  let inst := dir_self s in
  let clss := dir_type in
  let common := filter (fun n => existsb (String.eqb n) inst) clss in
  filter (fun name => negb (callable_on_type name)
                      && negb (is_dunder_attrib name)) common.

Definition _isforbidden (attr : string) : M bool :=
  forbiddenlist <- self_call "_getforbiddenlist" (gets _getforbiddenlist) ;;
  ret (existsb (String.eqb (strip_underscores attr)) forbiddenlist).

Definition __delattr__ (attr : list string) : M unit :=
  for_each attr (fun key =>
    forbidden <- self_call "_isforbidden" (_isforbidden key) ;;
    if forbidden then print (DelattrUnableToDelete key)
    else try_except (delitem key)
                    (fun e => print (DelattrWentWrong e key))).

Definition __getattr__ (attr : string) : M value :=
  try_except
    (present <- gets (fun s => dict_contains (__dict__ s) attr) ;;
     if present then getitem attr else getitem ("_" ++ attr))
    (fun e => match e with
              | KeyError _ =>
                  self_call "__setattr__" (__setattr__ attr PyNone) ;;
                  ret PyNone
              | _ => raise e
              end).

Definition _initprotect (attr : string) (v : value) : M unit :=
  self_call "__setattr__" (__setattr__ ("_" ++ attr) v).

(** [__init__(self, *args, **kwargs)].  A keyword named [self] collides
    with the first parameter: the call raises [TypeError] before the
    body runs. *)
Definition __init__ (args : list string) (kwargs : list (string * value))
  : M unit :=
  if existsb (String.eqb "self") (map fst kwargs) then raise TypeError
  else
    (for_each args
       (fun arg => self_call "_initprotect" (_initprotect arg PyNone)) ;;
     for_each kwargs
       (fun kv => self_call "_initprotect"
                    (_initprotect (fst kv) (snd kv)))).

Definition _hasattr (attr : string) (s : instance) : bool :=
  dict_contains (__dict__ s) attr.

Definition _hasprotectedattr (attr : string) : M bool :=
  found <- (if PyStr.startswith attr "_"
            then self_call "_hasattr" (gets (_hasattr attr))
            else ret false) ;;
  if found then ret true
  else
    let stripped := strip_underscores attr in
    found1 <- self_call "_hasattr" (gets (_hasattr ("_" ++ stripped))) ;;
    if found1 then ret true
    else
      found2 <- self_call "_hasattr" (gets (_hasattr ("__" ++ stripped))) ;;
      if found2 then ret true else ret false.

Definition _hasunprotectedattr (attr : string) : M bool :=
  let stripped := strip_underscores attr in
  self_call "_hasattr" (gets (_hasattr stripped)).

Definition _updateattr (oldname newname : string) : M unit :=
  try_except
    (data <- self_call "__getattr__" (__getattr__ oldname) ;;
     self_call "__setattr__" (__setattr__ newname data) ;;
     self_call "__delattr__" (__delattr__ [oldname]))
    (fun e => print (UpdateattrException oldname newname e) ;; raise e).

(** One iteration of the loop of [protect]; the second operand of [and]
    is evaluated only when the first is true. *)
Definition protect_arg (arg : string) : M unit :=
  forbidden <- self_call "_isforbidden" (_isforbidden arg) ;;
  go <- (if negb forbidden
         then self_call "_hasunprotectedattr" (_hasunprotectedattr arg)
         else ret false) ;;
  if go then
    try_except
      (let old := undo_protected_name_prefix arg in
       new <- lift (make_protected_name_prefix old false) ;;
       self_call "_updateattr" (_updateattr old new))
      (fun e => print (SomethingWentWrong e))
  else ret tt.

Definition protect (attr : list string) : M unit :=
  keys <- gets (fun s => dict_keys (__dict__ s)) ;;
  let attr := match attr with [] => keys | _ => attr end in
  for_each attr protect_arg.

(** One iteration of the loop of [unprotect]. *)
Definition unprotect_arg (arg : string) : M unit :=
  forbidden <- self_call "_isforbidden" (_isforbidden arg) ;;
  go <- (if negb forbidden
         then self_call "_hasprotectedattr" (_hasprotectedattr arg)
         else ret false) ;;
  if go then
    try_except
      (old <- lift (make_protected_name_prefix arg false) ;;
       let new := undo_protected_name_prefix old in
       self_call "_updateattr" (_updateattr old new))
      (fun e => print (SomethingWentWrong e))
  else ret tt.

Definition unprotect (attr : list string) : M unit :=
  keys <- gets (fun s => dict_keys (__dict__ s)) ;;
  let attr := match attr with [] => keys | _ => attr end in
  for_each attr unprotect_arg.

End ProtectedClass.

(** The methods [ProtectedClass] defines: the names a key of the
    instance dictionary can hide. *)
Definition method_names : list string :=
  [ "__init__"; "__setattr__"; "__delattr__"; "__getattr__";
    "_initprotect"; "_hasattr"; "_hasprotectedattr";
    "_hasunprotectedattr"; "_updateattr"; "_getforbiddenlist";
    "_isforbidden"; "protect"; "unprotect" ].

(** [dir(MyDataClass)], restricted to the names the source defines or
    inherits from [ABC]; the members inherited from [object] are all
    dunder names and are dropped by [_getforbiddenlist] either way. *)
Definition MyDataClass_dir : list (string * bool) :=
  [ ("__init__", true); ("__setattr__", true); ("__delattr__", true);
    ("__getattr__", true); ("__dict__", false); ("__doc__", false);
    ("__module__", false); ("__annotations__", false);
    ("__abstractmethods__", false); ("__slots__", false);
    ("__weakref__", false); ("_abc_impl", false);
    ("_initprotect", true); ("_hasattr", true);
    ("_hasprotectedattr", true); ("_hasunprotectedattr", true);
    ("_updateattr", true); ("_getforbiddenlist", true);
    ("_isforbidden", true); ("protect", true); ("unprotect", true);
    ("backup_set", false); ("backup_date", false); ("count", false) ].

(** [MyDataClass.__init__] passes the extra positional argument
    ['hello'] to the base class. *)
Definition MyDataClass_init (args : list string)
  (kwargs : list (string * value)) : M unit :=
  __init__ ("hello" :: args) kwargs.

(** The dictionary of the sample run under [if __name__ == '__main__']. *)
Definition sample_data : list (string * value) :=
  [ ("count", PyString "162");
    ("backup_set", PyString "76144912-5d67-4a6a-9f7d-3631bc901ad8");
    ("backup_date", PyString "1651039155045");
    ("type", PyString "full") ].

Definition backup : instance :=
  snd (MyDataClass_init [] sample_data new_instance).

(* ================================================================= *)
(** ** Vocabulary of the properties *)

(** A name is plain when it carries no underscore at either end: it is
    its own fully stripped spelling. *)
Definition plain (n : string) : Prop := strip_underscores n = n.

(** The name is not the name of a method of the class. *)
Definition not_a_method (n : string) : Prop :=
  existsb (String.eqb n) method_names = false.

(** No key of the instance hides a method of the class. *)
Definition unshadowed (s : instance) : Prop :=
  forallb (fun m => negb (_hasattr m s)) method_names = true.

(** A plain name that is not the name of a method, and whose protected
    spelling is not either. *)
Definition usable (n : string) : Prop :=
  plain n /\ not_a_method n /\ not_a_method ("_" ++ n).

(** Names [__init__] can be given: no keyword is [self], and no name
    is one whose protected spelling would hide [_initprotect] or
    [__setattr__] from the iterations that follow. *)
Definition constructible (args : list string)
  (kwargs : list (string * value)) : Prop :=
  ~ In "self" (map fst kwargs)
  /\ forall name : string,
       In name args \/ In name (map fst kwargs) ->
       name <> "initprotect" /\ name <> "_setattr__".

(** The instance [__init__] leaves when run on a fresh object. *)
Definition constructed (args : list string) (kwargs : list (string * value))
  : instance :=
  snd (__init__ args kwargs new_instance).

(** The public calls made on an instance after construction. *)
Inductive call : Type :=
| Protect (names : list string)
| Unprotect (names : list string).

Definition call_names (c : call) : list string :=
  match c with Protect names | Unprotect names => names end.

Section Runs.

Variable type_dir : list (string * bool).

(** What [_isforbidden] answers when its call of [_getforbiddenlist]
    goes through. *)
Definition is_forbidden (attr : string) (s : instance) : bool :=
  existsb (String.eqb (strip_underscores attr))
          (_getforbiddenlist type_dir s).

(** What [_hasprotectedattr] answers when its calls of [_hasattr] go
    through. *)
Definition is_protected (attr : string) (s : instance) : bool :=
  PyStr.startswith attr "_" && _hasattr attr s
  || _hasattr ("_" ++ strip_underscores attr) s
  || _hasattr ("__" ++ strip_underscores attr) s.

(** The state one iteration of the loop of [__delattr__] leaves when
    its call of [_isforbidden] goes through. *)
Definition delattr_step (key : string) (s : instance) : instance :=
  if is_forbidden key s then
    Instance (__dict__ s) (stdout s ++ [DelattrUnableToDelete key])%list
  else if dict_contains (__dict__ s) key then
    Instance (dict_remove (__dict__ s) key) (stdout s)
  else
    Instance (__dict__ s)
             (stdout s ++ [DelattrWentWrong (KeyError key) key])%list.

(** The names of [names] that [__delattr__] does delete. *)
Definition deletable (names : list string) (s : instance) (k : string)
  : bool :=
  existsb (String.eqb k) names && negb (is_forbidden k s).

(** [obj.protect(...)] and [obj.unprotect(...)], looked up on the
    instance like any other method. *)
Definition run_call (c : call) : M unit :=
  match c with
  | Protect names => self_call "protect" (protect type_dir names)
  | Unprotect names => self_call "unprotect" (unprotect type_dir names)
  end.

(** The state after a sequence of calls, each started where the
    previous one stopped. *)
Fixpoint run_calls (cs : list call) (s : instance) : instance :=
  match cs with
  | [] => s
  | c :: cs' => run_calls cs' (snd (run_call c s))
  end.

End Runs.

(** What a rename of a missing source is said to do: it returns, leaves
    [newname] stored with [None] and leaves [oldname] not stored. *)
Definition rename_manufactures_null (type_dir : list (string * bool))
  (oldname newname : string) (s : instance) : Prop :=
  let r := _updateattr type_dir oldname newname s in
  fst r = Return tt
  /\ dict_get (__dict__ (snd r)) newname = Some PyNone
  /\ _hasattr oldname (snd r) = false.

(** The entry of [n], under either spelling, is after [protect(n)] and
    [unprotect(n)] what it was before. *)
Definition round_trip (type_dir : list (string * bool)) (n : string)
  (s : instance) : Prop :=
  let s2 := snd (unprotect type_dir [n] (snd (protect type_dir [n] s))) in
  dict_get (__dict__ s2) n = dict_get (__dict__ s) n
  /\ dict_get (__dict__ s2) ("_" ++ n) = dict_get (__dict__ s) ("_" ++ n).

(** Every key is a usable name behind one underscore, as [__init__]
    leaves them when it is given usable names. *)
Definition all_prefixed (s : instance) : Prop :=
  forall k : string,
    _hasattr k s = true -> exists m : string, usable m /\ k = "_" ++ m.

(** The sample instance after [backup.unprotect('type')]. *)
Definition backup_unprotected : instance :=
  snd (unprotect MyDataClass_dir ["type"] backup).

(** A call that is given no names, or usable names only. *)
Definition usable_call (c : call) : Prop := Forall usable (call_names c).



(** At most one of the spellings [name] and [_name] is a key. *)
Definition single_spelling (s : instance) : Prop :=
  forall name : string,
    ~ (_hasattr name s = true /\ _hasattr ("_" ++ name) s = true).

(** Every key is a plain name or a plain name behind one underscore. *)
Definition keys_well_formed (s : instance) : Prop :=
  forall k : string,
    _hasattr k s = true -> plain (undo_protected_name_prefix k).

(** Every key is a usable name or a usable name behind one
    underscore. *)
Definition keys_usable (s : instance) : Prop :=
  forall k : string,
    _hasattr k s = true -> usable (undo_protected_name_prefix k).



(* ================================================================= *)
(** ** Facts about the string helpers *)

Lemma startswith_underscore_cons (a : ascii) (s : string) :
  PyStr.startswith (String a s) "_" = Ascii.eqb a underscore.
Proof.
  unfold PyStr.startswith, underscore. cbn [String.prefix].
  destruct (ascii_dec "_" a) as [<- | Hne].
  - now destruct s.
  - symmetry. apply Ascii.eqb_neq. congruence.
Qed.

Lemma startswith_underscore_inv (s : string) :
  PyStr.startswith s "_" = true -> exists t, s = "_" ++ t.
Proof.
  destruct s as [| a t]; [discriminate |].
  rewrite startswith_underscore_cons. intros H.
  apply Ascii.eqb_eq in H. subst a. now exists t.
Qed.

Lemma undo_prefixed (s : string) :
  undo_protected_name_prefix ("_" ++ s) = s.
Proof.
  unfold undo_protected_name_prefix, PyStr.removeprefix.
  change ("_" ++ s) with (String underscore s).
  rewrite startswith_underscore_cons. reflexivity.
Qed.

Lemma undo_unprefixed (s : string) :
  PyStr.startswith s "_" = false -> undo_protected_name_prefix s = s.
Proof. unfold undo_protected_name_prefix. now intros ->. Qed.

Lemma make_protected_unguarded (name : string) :
  make_protected_name_prefix name false = Return ("_" ++ name).
Proof. reflexivity. Qed.

Lemma lstrip_no_underscore (s : string) :
  PyStr.startswith (PyStr.lstrip underscore s) "_" = false.
Proof.
  induction s as [| a s IH]; [reflexivity |].
  simpl. destruct (Ascii.eqb a underscore) eqn:E; [exact IH |].
  now rewrite startswith_underscore_cons.
Qed.

Lemma rstrip_keeps_head (s : string) :
  PyStr.startswith s "_" = false ->
  PyStr.startswith (PyStr.rstrip underscore s) "_" = false.
Proof.
  destruct s as [| a s]; [reflexivity |].
  rewrite startswith_underscore_cons. intros Ha. simpl.
  destruct (PyStr.rstrip underscore s).
  - rewrite Ha. now rewrite startswith_underscore_cons.
  - now rewrite startswith_underscore_cons.
Qed.

Lemma strip_no_underscore (s : string) :
  PyStr.startswith (strip_underscores s) "_" = false.
Proof. apply rstrip_keeps_head, lstrip_no_underscore. Qed.

Lemma strip_prefixed (s : string) :
  strip_underscores ("_" ++ s) = strip_underscores s.
Proof. reflexivity. Qed.

Lemma strip_undo (s : string) :
  strip_underscores (undo_protected_name_prefix s) = strip_underscores s.
Proof.
  destruct (PyStr.startswith s "_") eqn:E.
  - apply startswith_underscore_inv in E as [t ->].
    now rewrite undo_prefixed, strip_prefixed.
  - now rewrite undo_unprefixed.
Qed.

Lemma plain_no_underscore (n : string) :
  plain n -> PyStr.startswith n "_" = false.
Proof. intros <-. apply strip_no_underscore. Qed.

Lemma plain_undo (n : string) : plain n -> undo_protected_name_prefix n = n.
Proof. intros H. now apply undo_unprefixed, plain_no_underscore. Qed.

Lemma prefixed_not_plain (n : string) : ~ plain ("_" ++ n).
Proof.
  intros H. apply plain_no_underscore in H.
  change ("_" ++ n) with (String underscore n) in H.
  rewrite startswith_underscore_cons in H. discriminate H.
Qed.

Lemma prefixed_neq (n : string) : "_" ++ n <> n.
Proof.
  intros H. apply (f_equal String.length) in H. simpl in H. lia.
Qed.

Lemma plain_neq_prefixed (n m : string) : plain n -> n <> "_" ++ m.
Proof. intros H ->. exact (prefixed_not_plain _ H). Qed.

(* ================================================================= *)
(** ** Facts about the dictionary *)

Lemma dict_get_set (d : pydict) (k : string) (v : value) (x : string) :
  dict_get (dict_set d k v) x =
  if String.eqb x k then Some v else dict_get d x.
Proof.
  induction d as [| [k' v'] d IH]; simpl.
  - rewrite String.eqb_sym. reflexivity.
  - destruct (String.eqb k' k) eqn:Ek; simpl.
    + apply String.eqb_eq in Ek. subst k'. rewrite (String.eqb_sym k x).
      destruct (String.eqb x k); reflexivity.
    + destruct (String.eqb k' x) eqn:Ex.
      * apply String.eqb_eq in Ex. subst k'. now rewrite Ek.
      * exact IH.
Qed.

Lemma dict_get_remove (d : pydict) (k x : string) :
  dict_get (dict_remove d k) x =
  if String.eqb x k then None else dict_get d x.
Proof.
  unfold dict_remove.
  induction d as [| [k' v'] d IH]; simpl.
  - now destruct (String.eqb x k).
  - destruct (String.eqb k' k) eqn:Ek; simpl.
    + apply String.eqb_eq in Ek. subst k'. rewrite IH.
      rewrite (String.eqb_sym k x). now destruct (String.eqb x k).
    + rewrite IH. destruct (String.eqb k' x) eqn:Ex; [| reflexivity].
      apply String.eqb_eq in Ex. subst k'. now rewrite Ek.
Qed.

Lemma dict_contains_set (d : pydict) (k : string) (v : value) (x : string) :
  dict_contains (dict_set d k v) x = String.eqb x k || dict_contains d x.
Proof.
  unfold dict_contains. rewrite dict_get_set.
  now destruct (String.eqb x k).
Qed.

Lemma dict_contains_remove (d : pydict) (k x : string) :
  dict_contains (dict_remove d k) x =
  negb (String.eqb x k) && dict_contains d x.
Proof.
  unfold dict_contains. rewrite dict_get_remove.
  now destruct (String.eqb x k).
Qed.

Lemma dict_contains_keys (d : pydict) (k : string) :
  dict_contains d k = true <-> In k (dict_keys d).
Proof.
  unfold dict_contains.
  induction d as [| [k' v'] d IH]; simpl.
  - split; [discriminate | tauto].
  - destruct (String.eqb k' k) eqn:Ek.
    + apply String.eqb_eq in Ek. tauto.
    + apply String.eqb_neq in Ek. rewrite IH. tauto.
Qed.

Lemma dict_contains_get (d : pydict) (k : string) :
  dict_contains d k = true -> exists v, dict_get d k = Some v.
Proof.
  unfold dict_contains. destruct (dict_get d k) as [v |]; [| discriminate].
  now exists v.
Qed.

Lemma dict_get_contains (d : pydict) (k : string) (v : value) :
  dict_get d k = Some v -> dict_contains d k = true.
Proof. unfold dict_contains. now intros ->. Qed.

Lemma dict_get_not_contains (d : pydict) (k : string) :
  dict_contains d k = false -> dict_get d k = None.
Proof. unfold dict_contains. now destruct (dict_get d k). Qed.

(* ================================================================= *)
(** ** How each method runs *)

Lemma filter_all_true {A} (f : A -> bool) (l : list A) :
  (forall x, In x l -> f x = true) -> filter f l = l.
Proof.
  induction l as [| a l IH]; intros H; simpl; [reflexivity |].
  rewrite (H a (or_introl eq_refl)). f_equal.
  apply IH. intros x Hx. apply H. now right.
Qed.

Lemma existsb_eqb_In (x : string) (l : list string) :
  existsb (String.eqb x) l = true <-> In x l.
Proof.
  rewrite existsb_exists. split.
  - intros [y [Hy E]]. apply String.eqb_eq in E. now subst.
  - intros H. exists x. split; [exact H | apply String.eqb_refl].
Qed.

Lemma self_call_run {A} (name : string) (c : M A) (s : instance) :
  _hasattr name s = false -> self_call name c s = c s.
Proof. unfold self_call, _hasattr. now intros ->. Qed.


Lemma not_a_method_spec (n : string) :
  not_a_method n <-> ~ In n method_names.
Proof.
  unfold not_a_method. rewrite <- existsb_eqb_In.
  now destruct (existsb (String.eqb n) method_names).
Qed.

Lemma unshadowed_spec (s : instance) :
  unshadowed s <->
  forall m : string, In m method_names -> _hasattr m s = false.
Proof.
  unfold unshadowed. rewrite forallb_forall.
  split; intros H m Hm; specialize (H m Hm).
  - now apply negb_true_iff in H.
  - now apply negb_true_iff.
Qed.

Lemma unshadowed_method (s : instance) (m : string) :
  unshadowed s -> existsb (String.eqb m) method_names = true ->
  _hasattr m s = false.
Proof.
  intros H Hm. apply (proj1 (unshadowed_spec s) H).
  now apply existsb_eqb_In.
Qed.

(** The keys of [s'] are keys of [s] or are not names of methods. *)
Lemma unshadowed_keys (s s' : instance) :
  unshadowed s ->
  (forall m : string,
      _hasattr m s' = true -> _hasattr m s = true \/ not_a_method m) ->
  unshadowed s'.
Proof.
  rewrite !unshadowed_spec. intros H Hkeys m Hm.
  destruct (_hasattr m s') eqn:E; [| reflexivity].
  destruct (Hkeys m E) as [H1 | H1].
  - rewrite (H m Hm) in H1. discriminate H1.
  - apply not_a_method_spec in H1. contradiction.
Qed.

Lemma unshadowed_set (s : instance) (k : string) (v : value)
  (out : list line) :
  unshadowed s -> not_a_method k ->
  unshadowed (Instance (dict_set (__dict__ s) k v) out).
Proof.
  intros H Hk. apply (unshadowed_keys s); [exact H |].
  intros m. unfold _hasattr. cbn [__dict__]. rewrite dict_contains_set.
  destruct (String.eqb_spec m k) as [-> | _]; [now right | now left].
Qed.

Lemma unshadowed_remove (s : instance) (k : string) (out : list line) :
  unshadowed s -> unshadowed (Instance (dict_remove (__dict__ s) k) out).
Proof.
  intros H. apply (unshadowed_keys s); [exact H |].
  intros m. unfold _hasattr. cbn [__dict__]. rewrite dict_contains_remove.
  intros E. apply andb_prop in E. now left.
Qed.

Lemma unshadowed_stdout (s : instance) (out : list line) :
  unshadowed s -> unshadowed (Instance (__dict__ s) out).
Proof.
  intros H. apply (unshadowed_keys s); [exact H |]. intros m E. now left.
Qed.

Lemma for_each_one {A} (body : A -> M unit) (x : A) (s : instance) :
  for_each [x] body s = body x s.
Proof.
  cbn [for_each]. unfold bind, ret.
  now destruct (body x s) as [[[] | e] s'].
Qed.

Lemma for_each_cons {A} (body : A -> M unit) (x : A) (xs : list A)
  (s : instance) :
  fst (body x s) = Return tt ->
  for_each (x :: xs) body s = for_each xs body (snd (body x s)).
Proof.
  intros H. cbn [for_each]. unfold bind.
  destruct (body x s) as [o s']. simpl in *. now subst o.
Qed.

Section MethodRuns.

Variable type_dir : list (string * bool).

(** The instance never contributes to the forbidden list: every name
    of [dir(type(self))] is also in [dir(self)]. *)
Lemma _getforbiddenlist_indep (s s' : instance) :
  _getforbiddenlist type_dir s = _getforbiddenlist type_dir s'.
Proof.
  unfold _getforbiddenlist. f_equal.
  rewrite !filter_all_true; [reflexivity | |];
    intros x Hx; apply existsb_eqb_In; unfold dir_self;
    apply in_or_app; now right.
Qed.

Lemma is_forbidden_strip (a b : string) (s s' : instance) :
  strip_underscores a = strip_underscores b ->
  is_forbidden type_dir a s = is_forbidden type_dir b s'.
Proof.
  intros E. unfold is_forbidden.
  now rewrite E, (_getforbiddenlist_indep s s').
Qed.

Lemma is_forbidden_indep (a : string) (s s' : instance) :
  is_forbidden type_dir a s = is_forbidden type_dir a s'.
Proof. now apply is_forbidden_strip. Qed.

Lemma isforbidden_run (attr : string) (s : instance) :
  _hasattr "_getforbiddenlist" s = false ->
  _isforbidden type_dir attr s = (Return (is_forbidden type_dir attr s), s).
Proof.
  intros H. unfold _isforbidden, bind. now rewrite self_call_run.
Qed.


Lemma hasunprotected_run (attr : string) (s : instance) :
  _hasattr "_hasattr" s = false ->
  _hasunprotectedattr attr s
  = (Return (_hasattr (strip_underscores attr) s), s).
Proof. intros H. unfold _hasunprotectedattr. now rewrite self_call_run. Qed.


Lemma hasprotected_run (attr : string) (s : instance) :
  _hasattr "_hasattr" s = false ->
  _hasprotectedattr attr s = (Return (is_protected attr s), s).
Proof.
  intros H. unfold _hasprotectedattr, is_protected, bind.
  destruct (PyStr.startswith attr "_"); cbn [andb].
  - rewrite self_call_run by exact H. unfold gets at 1.
    destruct (_hasattr attr s); [reflexivity |].
    rewrite self_call_run by exact H. unfold gets at 1.
    destruct (_hasattr ("_" ++ strip_underscores attr) s); [reflexivity |].
    rewrite self_call_run by exact H. unfold gets at 1.
    now destruct (_hasattr ("__" ++ strip_underscores attr) s).
  - unfold ret at 1.
    rewrite self_call_run by exact H. unfold gets at 1.
    destruct (_hasattr ("_" ++ strip_underscores attr) s); [reflexivity |].
    rewrite self_call_run by exact H. unfold gets at 1.
    now destruct (_hasattr ("__" ++ strip_underscores attr) s).
Qed.


Lemma getattr_run (k : string) (s : instance) :
  __getattr__ k s =
  match dict_get (__dict__ s) k with
  | Some v => (Return v, s)
  | None =>
      match dict_get (__dict__ s) ("_" ++ k) with
      | Some v => (Return v, s)
      | None =>
          if _hasattr "__setattr__" s then (Raise TypeError, s)
          else (Return PyNone,
                Instance (dict_set (__dict__ s) k PyNone) (stdout s))
      end
  end.
Proof.
  unfold __getattr__, try_except, bind, gets, getitem, dict_contains.
  destruct (dict_get (__dict__ s) k) as [v |] eqn:Ek.
  - now rewrite Ek.
  - destruct (dict_get (__dict__ s) ("_" ++ k)); [reflexivity |].
    unfold self_call, _hasattr, dict_contains.
    now destruct (dict_get (__dict__ s) "__setattr__").
Qed.

Lemma getattr_unshadowed (k : string) (s s1 : instance)
  (o : outcome value) :
  unshadowed s -> not_a_method k ->
  __getattr__ k s = (o, s1) ->
  unshadowed s1 /\ stdout s1 = stdout s /\ exists v, o = Return v.
Proof.
  intros Hs Hk. rewrite getattr_run.
  rewrite (unshadowed_method s "__setattr__" Hs eq_refl).
  destruct (dict_get (__dict__ s) k) as [v |];
    [| destruct (dict_get (__dict__ s) ("_" ++ k)) as [v |]];
    intros E; injection E as <- <-.
  - split; [exact Hs |]. split; [reflexivity | now exists v].
  - split; [exact Hs |]. split; [reflexivity | now exists v].
  - split; [now apply unshadowed_set |].
    split; [reflexivity | now exists PyNone].
Qed.

Lemma delattr_nil (s : instance) :
  __delattr__ type_dir [] s = (Return tt, s).
Proof. reflexivity. Qed.

Lemma delattr_step_keys (key : string) (s : instance) (x : string) :
  _hasattr x (delattr_step type_dir key s) = true -> _hasattr x s = true.
Proof.
  unfold delattr_step, _hasattr.
  destruct (is_forbidden type_dir key s); cbn [__dict__]; [easy |].
  destruct (dict_contains (__dict__ s) key); cbn [__dict__]; [| easy].
  rewrite dict_contains_remove. intros E. now apply andb_prop in E.
Qed.

Lemma delattr_step_free (key : string) (s : instance) (x : string) :
  _hasattr x s = false -> _hasattr x (delattr_step type_dir key s) = false.
Proof.
  intros H. destruct (_hasattr x (delattr_step type_dir key s)) eqn:E;
    [| reflexivity].
  apply delattr_step_keys in E. congruence.
Qed.

Lemma delattr_cons (key : string) (keys : list string) (s : instance) :
  _hasattr "_isforbidden" s = false ->
  _hasattr "_getforbiddenlist" s = false ->
  __delattr__ type_dir (key :: keys) s =
  __delattr__ type_dir keys (delattr_step type_dir key s).
Proof.
  intros H1 H2. unfold __delattr__, delattr_step. cbn [for_each].
  unfold bind at 1. unfold bind at 1.
  rewrite self_call_run by exact H1.
  rewrite isforbidden_run by exact H2.
  destruct (is_forbidden type_dir key s); [reflexivity |].
  unfold try_except, delitem.
  now destruct (dict_contains (__dict__ s) key).
Qed.

Lemma delattr_returns (keys : list string) (s : instance) :
  _hasattr "_isforbidden" s = false ->
  _hasattr "_getforbiddenlist" s = false ->
  fst (__delattr__ type_dir keys s) = Return tt.
Proof.
  revert s. induction keys as [| key keys IH]; intros s H1 H2.
  - reflexivity.
  - rewrite delattr_cons by assumption.
    apply IH; now apply delattr_step_free.
Qed.

Lemma delattr_one (key : string) (s : instance) :
  _hasattr "_isforbidden" s = false ->
  _hasattr "_getforbiddenlist" s = false ->
  __delattr__ type_dir [key] s = (Return tt, delattr_step type_dir key s).
Proof. intros H1 H2. now rewrite delattr_cons. Qed.

Lemma updateattr_run (oldname newname : string) (s s1 : instance)
  (data : value) :
  unshadowed s -> not_a_method oldname -> not_a_method newname ->
  __getattr__ oldname s = (Return data, s1) ->
  _updateattr type_dir oldname newname s =
  (Return tt,
   delattr_step type_dir oldname
     (Instance (dict_set (__dict__ s1) newname data) (stdout s1))).
Proof.
  intros Hs Hold Hnew Hget.
  destruct (getattr_unshadowed _ _ _ _ Hs Hold Hget) as [Hs1 _].
  pose proof (unshadowed_set s1 newname data (stdout s1) Hs1 Hnew) as Hs2.
  unfold _updateattr, try_except.
  unfold bind at 1.
  rewrite self_call_run by now apply unshadowed_method.
  rewrite Hget.
  unfold bind at 1.
  rewrite self_call_run by now apply unshadowed_method.
  unfold __setattr__, setitem.
  rewrite self_call_run by now apply unshadowed_method.
  now rewrite delattr_one by now apply unshadowed_method.
Qed.

Lemma updateattr_returns (oldname newname : string) (s : instance) :
  unshadowed s -> not_a_method oldname -> not_a_method newname ->
  fst (_updateattr type_dir oldname newname s) = Return tt.
Proof.
  intros Hs Hold Hnew.
  destruct (__getattr__ oldname s) as [o s1] eqn:Hget.
  destruct (getattr_unshadowed _ _ _ _ Hs Hold Hget) as [_ [_ [v ->]]].
  now rewrite (updateattr_run _ _ _ _ _ Hs Hold Hnew Hget).
Qed.

(** The guard of the loop of [protect]. *)
Lemma protect_arg_guard (arg : string) (s : instance) :
  unshadowed s ->
  protect_arg type_dir arg s =
  if negb (is_forbidden type_dir arg s)
     && _hasattr (strip_underscores arg) s
  then
    try_except
      (self_call "_updateattr"
         (_updateattr type_dir (undo_protected_name_prefix arg)
            ("_" ++ undo_protected_name_prefix arg)))
      (fun e => print (SomethingWentWrong e)) s
  else (Return tt, s).
Proof.
  intros Hs. unfold protect_arg. unfold bind at 1.
  rewrite self_call_run by now apply unshadowed_method.
  rewrite isforbidden_run by now apply unshadowed_method.
  destruct (is_forbidden type_dir arg s); cbn [negb andb]; [reflexivity |].
  unfold bind at 1.
  rewrite self_call_run by now apply unshadowed_method.
  rewrite hasunprotected_run by now apply unshadowed_method.
  destruct (_hasattr (strip_underscores arg) s); reflexivity.
Qed.

Lemma unprotect_arg_guard (arg : string) (s : instance) :
  unshadowed s ->
  unprotect_arg type_dir arg s =
  if negb (is_forbidden type_dir arg s) && is_protected arg s
  then
    try_except
      (self_call "_updateattr" (_updateattr type_dir ("_" ++ arg) arg))
      (fun e => print (SomethingWentWrong e)) s
  else (Return tt, s).
Proof.
  intros Hs. unfold unprotect_arg. unfold bind at 1.
  rewrite self_call_run by now apply unshadowed_method.
  rewrite isforbidden_run by now apply unshadowed_method.
  destruct (is_forbidden type_dir arg s); cbn [negb andb]; [reflexivity |].
  unfold bind at 1.
  rewrite self_call_run by now apply unshadowed_method.
  rewrite hasprotected_run by now apply unshadowed_method.
  destruct (is_protected arg s); [| reflexivity].
  unfold try_except, bind, lift.
  rewrite make_protected_unguarded. now rewrite undo_prefixed.
Qed.

Lemma protect_arg_run (arg : string) (s : instance) :
  unshadowed s ->
  not_a_method (undo_protected_name_prefix arg) ->
  not_a_method ("_" ++ undo_protected_name_prefix arg) ->
  protect_arg type_dir arg s =
  (Return tt,
   if negb (is_forbidden type_dir arg s)
      && _hasattr (strip_underscores arg) s
   then snd (_updateattr type_dir (undo_protected_name_prefix arg)
               ("_" ++ undo_protected_name_prefix arg) s)
   else s).
Proof.
  intros Hs Hold Hnew. rewrite protect_arg_guard by exact Hs.
  destruct (negb (is_forbidden type_dir arg s)
            && _hasattr (strip_underscores arg) s); [| reflexivity].
  unfold try_except.
  rewrite self_call_run by now apply unshadowed_method.
  pose proof (updateattr_returns _ _ s Hs Hold Hnew) as Hret.
  destruct (_updateattr type_dir _ _ s) as [o s']. simpl in *.
  now subst o.
Qed.

Lemma unprotect_arg_run (arg : string) (s : instance) :
  unshadowed s ->
  not_a_method arg ->
  not_a_method ("_" ++ arg) ->
  unprotect_arg type_dir arg s =
  (Return tt,
   if negb (is_forbidden type_dir arg s) && is_protected arg s
   then snd (_updateattr type_dir ("_" ++ arg) arg s)
   else s).
Proof.
  intros Hs Hnew Hold. rewrite unprotect_arg_guard by exact Hs.
  destruct (negb (is_forbidden type_dir arg s) && is_protected arg s);
    [| reflexivity].
  unfold try_except.
  rewrite self_call_run by now apply unshadowed_method.
  pose proof (updateattr_returns _ _ s Hs Hold Hnew) as Hret.
  destruct (_updateattr type_dir _ _ s) as [o s']. simpl in *.
  now subst o.
Qed.

Lemma protect_arg_skips (arg : string) (s : instance) :
  unshadowed s ->
  negb (is_forbidden type_dir arg s)
  && _hasattr (strip_underscores arg) s = false ->
  protect_arg type_dir arg s = (Return tt, s).
Proof. intros Hs H. now rewrite protect_arg_guard, H. Qed.

Lemma unprotect_arg_skips (arg : string) (s : instance) :
  unshadowed s ->
  negb (is_forbidden type_dir arg s) && is_protected arg s = false ->
  unprotect_arg type_dir arg s = (Return tt, s).
Proof. intros Hs H. now rewrite unprotect_arg_guard, H. Qed.

Lemma protect_run (names : list string) (s : instance) :
  protect type_dir names s =
  for_each (match names with [] => dict_keys (__dict__ s) | _ => names end)
           (protect_arg type_dir) s.
Proof. reflexivity. Qed.

Lemma unprotect_run (names : list string) (s : instance) :
  unprotect type_dir names s =
  for_each (match names with [] => dict_keys (__dict__ s) | _ => names end)
           (unprotect_arg type_dir) s.
Proof. reflexivity. Qed.

Lemma protect_one (name : string) (s : instance) :
  protect type_dir [name] s = protect_arg type_dir name s.
Proof. rewrite protect_run. apply for_each_one. Qed.

Lemma unprotect_one (name : string) (s : instance) :
  unprotect type_dir [name] s = unprotect_arg type_dir name s.
Proof. rewrite unprotect_run. apply for_each_one. Qed.

End MethodRuns.

(* ================================================================= *)
(** ** The hooks: set, get, rename *)

Lemma dict_keys_set (d : pydict) (k : string) (v : value) :
  dict_keys (dict_set d k v) =
  if dict_contains d k then dict_keys d else (dict_keys d ++ [k])%list.
Proof.
  unfold dict_contains.
  induction d as [| [k' v'] d IH]; simpl; [reflexivity |].
  destruct (String.eqb k' k) eqn:Ek; simpl.
  - apply String.eqb_eq in Ek. now subst.
  - rewrite IH. now destruct (dict_get d k).
Qed.

(** C9.  [__setattr__] writes the value under exactly the key it is
    given: afterwards that key holds the value, every other key holds
    what it held, the key list is unchanged when the key was present and
    extended by that very key otherwise, and nothing is printed. *)
Theorem setattr_exact_and_framed (attr : string) (v : value) (s : instance) :
  exists s' : instance,
    __setattr__ attr v s = (Return tt, s')
    /\ (forall k : string,
          dict_get (__dict__ s') k =
          if String.eqb k attr then Some v else dict_get (__dict__ s) k)
    /\ dict_keys (__dict__ s') =
       (if _hasattr attr s then dict_keys (__dict__ s)
        else dict_keys (__dict__ s) ++ [attr])%list
    /\ stdout s' = stdout s.
Proof.
  eexists. split; [reflexivity |]. cbn [__dict__ stdout].
  split; [| split].
  - intros k. apply dict_get_set.
  - apply dict_keys_set.
  - reflexivity.
Qed.

(** C4, on an instance that does not hide [__setattr__].  Reading a
    name stored under neither [x] nor [_x] raises nothing and returns
    [None]; it creates the key [x] with value [None], does not create
    [_x], leaves every other key alone and prints nothing. *)
Theorem getattr_autovivifies (x : string) (s : instance) :
  _hasattr "__setattr__" s = false ->
  _hasattr x s = false ->
  _hasattr ("_" ++ x) s = false ->
  exists s' : instance,
    __getattr__ x s = (Return PyNone, s')
    /\ dict_get (__dict__ s') x = Some PyNone
    /\ _hasattr x s' = true
    /\ _hasattr ("_" ++ x) s' = false
    /\ (forall k : string,
          k <> x -> dict_get (__dict__ s') k = dict_get (__dict__ s) k)
    /\ stdout s' = stdout s.
Proof.
  intros Hset Hx Hpx. rewrite getattr_run, Hset.
  unfold _hasattr in *.
  rewrite (dict_get_not_contains _ _ Hx), (dict_get_not_contains _ _ Hpx).
  eexists. split; [reflexivity |]. cbn [__dict__ stdout].
  repeat split.
  - now rewrite dict_get_set, String.eqb_refl.
  - now rewrite dict_contains_set, String.eqb_refl.
  - rewrite dict_contains_set, Hpx.
    destruct (String.eqb_spec ("_" ++ x) x) as [E | _]; [| reflexivity].
    now apply prefixed_neq in E.
  - intros k Hk. rewrite dict_get_set.
    now destruct (String.eqb_spec k x).
Qed.

Lemma getattr_autovivifies_witness :
  exists s' : instance,
    __getattr__ "x" new_instance = (Return PyNone, s')
    /\ dict_get (__dict__ s') "x" = Some PyNone
    /\ _hasattr "x" s' = true
    /\ _hasattr "_x" s' = false
    /\ (forall k : string,
          k <> "x" ->
          dict_get (__dict__ s') k = dict_get (__dict__ new_instance) k)
    /\ stdout s' = stdout new_instance.
Proof.
  apply (getattr_autovivifies "x" new_instance); reflexivity.
Defined.

(** C4, as stated for every instance, fails on one that stores a value
    under the key [__setattr__], as an assignment to that name leaves
    it: the read of a missing name finds that value in place of the
    method, and calling it raises [TypeError]; nothing is created. *)
Lemma getattr_raises_when_setattr_is_hidden :
  _hasattr "x" (snd (__setattr__ "__setattr__" (PyInt 1) new_instance))
  = false
  /\ _hasattr "_x" (snd (__setattr__ "__setattr__" (PyInt 1) new_instance))
     = false
  /\ __getattr__ "x" (snd (__setattr__ "__setattr__" (PyInt 1) new_instance))
     = (Raise TypeError,
        snd (__setattr__ "__setattr__" (PyInt 1) new_instance))
  /\ fst (__getattr__ "x"
            (snd (__setattr__ "__setattr__" (PyInt 1) new_instance)))
     <> Return PyNone.
Proof. repeat split. discriminate. Qed.

(** C5, as the code has it.  The guard of [make_protected_name_prefix]
    fires on names longer than two characters that start with two
    underscores, and only when [ignore] is set: it then raises
    [DunderAttributeError]; in every other case the result is the name
    behind one more underscore. *)
Theorem make_protected_name_prefix_guard :
  (forall (name : string) (ignore : bool),
      make_protected_name_prefix name ignore =
      if ignore && (2 <? String.length name)%nat
         && PyStr.startswith name "__"
      then Raise DunderAttributeError
      else Return ("_" ++ name))
  /\ make_protected_name_prefix "__secret__" true = Raise DunderAttributeError
  /\ make_protected_name_prefix "__secret__" false = Return "___secret__".
Proof.
  split; [| split; reflexivity].
  intros name ignore. unfold make_protected_name_prefix.
  destruct (ignore && (2 <? String.length name)%nat); [| reflexivity].
  now destruct (PyStr.startswith name "__").
Qed.

(** C5, as stated, fails: a name longer than two characters that starts
    with a single underscore passes the guard and is prefixed again. *)
Lemma make_protected_name_prefix_single_underscore :
  (2 < String.length "_secret")%nat
  /\ PyStr.startswith "_secret" "_" = true
  /\ make_protected_name_prefix "_secret" true = Return "__secret"
  /\ make_protected_name_prefix "_secret" true <> Raise DunderAttributeError.
Proof.
  repeat split; [simpl; lia | discriminate].
Qed.

Lemma unshadowed_not_a_method (s : instance) (k : string) :
  unshadowed s -> _hasattr k s = true -> not_a_method k.
Proof.
  intros Hs Hk. apply not_a_method_spec. intros Hin.
  rewrite (proj1 (unshadowed_spec s) Hs k Hin) in Hk. discriminate Hk.
Qed.

Section Rename.

Variable type_dir : list (string * bool).

(** C10, away from the names of the methods.  Let no key of the
    instance, nor [oldname], nor [newname], be the name of a method of
    the class.  When neither [oldname] nor [_oldname] is a key and
    [oldname] is not forbidden, [_updateattr] returns without raising
    or printing; afterwards [oldname] is not a key, [newname] holds
    [None] if it is a different name, and every other key holds what
    it held. *)
Theorem updateattr_missing_source (oldname newname : string)
  (s : instance) :
  unshadowed s ->
  not_a_method oldname ->
  not_a_method newname ->
  _hasattr oldname s = false ->
  _hasattr ("_" ++ oldname) s = false ->
  is_forbidden type_dir oldname s = false ->
  fst (_updateattr type_dir oldname newname s) = Return tt
  /\ _hasattr oldname (snd (_updateattr type_dir oldname newname s)) = false
  /\ (oldname <> newname ->
      rename_manufactures_null type_dir oldname newname s)
  /\ (forall k : string,
        k <> oldname -> k <> newname ->
        dict_get (__dict__ (snd (_updateattr type_dir oldname newname s))) k
        = dict_get (__dict__ s) k)
  /\ stdout (snd (_updateattr type_dir oldname newname s)) = stdout s.
Proof.
  unfold _hasattr, rename_manufactures_null.
  intros Hs Hmo Hmn Hold Hpold Hforb.
  pose proof (getattr_run oldname s) as Hget.
  rewrite (dict_get_not_contains _ _ Hold),
    (dict_get_not_contains _ _ Hpold),
    (unshadowed_method s "__setattr__" Hs eq_refl) in Hget.
  rewrite (updateattr_run type_dir _ newname _ _ _ Hs Hmo Hmn Hget).
  cbn [fst snd __dict__ stdout].
  unfold delattr_step.
  rewrite (is_forbidden_indep type_dir oldname _ s), Hforb.
  cbn [__dict__ stdout].
  assert (Hin : dict_contains
                  (dict_set (dict_set (__dict__ s) oldname PyNone)
                     newname PyNone) oldname = true).
  { rewrite !dict_contains_set, String.eqb_refl.
    now destruct (String.eqb oldname newname). }
  rewrite Hin. cbn [__dict__ stdout].
  assert (Hgone : dict_contains
                    (dict_remove
                       (dict_set (dict_set (__dict__ s) oldname PyNone)
                          newname PyNone) oldname) oldname = false)
    by now rewrite dict_contains_remove, String.eqb_refl.
  split; [reflexivity |]. split; [exact Hgone |].
  split; [| split; [| reflexivity]].
  - intros Hne. split; [reflexivity |]. split; [| exact Hgone].
    rewrite dict_get_remove, dict_get_set, String.eqb_refl.
    destruct (String.eqb_spec newname oldname) as [E | _];
      [now subst | reflexivity].
  - intros k Hk1 Hk2. rewrite dict_get_remove, !dict_get_set.
    destruct (String.eqb_spec k oldname); [contradiction |].
    now destruct (String.eqb_spec k newname).
Qed.

End Rename.

Lemma updateattr_missing_source_witness :
  fst (_updateattr MyDataClass_dir "size" "_size" backup) = Return tt
  /\ _hasattr "size" (snd (_updateattr MyDataClass_dir "size" "_size" backup))
     = false
  /\ ("size" <> "_size" ->
      rename_manufactures_null MyDataClass_dir "size" "_size" backup)
  /\ (forall k : string,
        k <> "size" -> k <> "_size" ->
        dict_get
          (__dict__ (snd (_updateattr MyDataClass_dir "size" "_size" backup)))
          k
        = dict_get (__dict__ backup) k)
  /\ stdout (snd (_updateattr MyDataClass_dir "size" "_size" backup))
     = stdout backup.
Proof.
  apply (updateattr_missing_source MyDataClass_dir "size" "_size" backup);
    reflexivity.
Defined.

(** C10, as stated for every pair of names, fails when the new name is
    the name of a method that the rename itself goes on to call.  On a
    fresh instance the rename of the missing [x] to [_isforbidden]
    writes [None] under [_isforbidden]; [__delattr__] then finds that
    value in place of the method, the [TypeError] is printed by
    [_updateattr] and raised again, and [x] stays stored. *)
Lemma updateattr_raises_when_target_is_a_method :
  _hasattr "x" new_instance = false
  /\ _hasattr "_x" new_instance = false
  /\ is_forbidden MyDataClass_dir "x" new_instance = false
  /\ _updateattr MyDataClass_dir "x" "_isforbidden" new_instance
     = (Raise TypeError,
        Instance [("x", PyNone); ("_isforbidden", PyNone)]
                 [UpdateattrException "x" "_isforbidden" TypeError])
  /\ ~ rename_manufactures_null MyDataClass_dir "x" "_isforbidden"
         new_instance.
Proof.
  repeat split.
  intros [H _]. discriminate H.
Qed.

(* ================================================================= *)
(** ** Classification *)



Lemma strip_neq_prefixed (n t : string) : strip_underscores n <> "_" ++ t.
Proof.
  intros E. pose proof (strip_no_underscore n) as H. rewrite E in H.
  change ("_" ++ t) with (String underscore t) in H.
  rewrite startswith_underscore_cons in H. discriminate H.
Qed.





(* ================================================================= *)
(** ** Deletion *)

Lemma dict_get_filter (p : string -> bool) (d : pydict) (k : string) :
  dict_get (filter (fun kv => p (fst kv)) d) k =
  if p k then dict_get d k else None.
Proof.
  induction d as [| [k' v'] d IH]; simpl.
  - now destruct (p k).
  - destruct (p k') eqn:Ep; simpl.
    + destruct (String.eqb_spec k' k) as [-> | _].
      * now rewrite Ep.
      * exact IH.
    + destruct (String.eqb_spec k' k) as [-> | _].
      * now rewrite IH, Ep.
      * exact IH.
Qed.

Lemma dict_remove_absent (d : pydict) (k : string) :
  dict_contains d k = false -> dict_remove d k = d.
Proof.
  intros H. apply filter_all_true. intros [k' v'] Hin. simpl.
  destruct (String.eqb_spec k' k) as [-> | _]; [| reflexivity].
  assert (Hk : dict_contains d k = true).
  { apply dict_contains_keys. unfold dict_keys.
    now apply (in_map fst) in Hin. }
  congruence.
Qed.

Lemma filter_filter {A} (f g : A -> bool) (l : list A) :
  filter f (filter g l) = filter (fun x => g x && f x) l.
Proof.
  induction l as [| a l IH]; simpl; [reflexivity |].
  destruct (g a); simpl; [destruct (f a) |]; now rewrite IH.
Qed.

Section Delete.

Variable type_dir : list (string * bool).

Lemma delattr_step_dict (key : string) (s : instance) :
  __dict__ (delattr_step type_dir key s) =
  filter (fun kv => negb (deletable type_dir [key] s (fst kv))) (__dict__ s).
Proof.
  unfold delattr_step, deletable.
  destruct (is_forbidden type_dir key s) eqn:Ef; cbn [__dict__].
  - symmetry. apply filter_all_true. intros [k v] _. simpl.
    destruct (String.eqb_spec k key) as [-> | _]; [| reflexivity].
    now rewrite Ef.
  - assert (E : dict_remove (__dict__ s) key =
                filter (fun kv => negb
                  (existsb (String.eqb (fst kv)) [key]
                   && negb (is_forbidden type_dir (fst kv) s)))
                  (__dict__ s)).
    { unfold dict_remove. apply filter_ext. intros [k v]. simpl.
      destruct (String.eqb_spec k key) as [-> | _]; [| reflexivity].
      now rewrite Ef. }
    destruct (dict_contains (__dict__ s) key) eqn:Ec; cbn [__dict__].
    + exact E.
    + rewrite <- E. symmetry. now apply dict_remove_absent.
Qed.

Lemma delattr_step_stdout (key : string) (s : instance) :
  exists out : list line,
    stdout (delattr_step type_dir key s) = (stdout s ++ out)%list
    /\ (forall k : string,
          In (DelattrUnableToDelete k) out <->
          k = key /\ is_forbidden type_dir k s = true)
    /\ (forall l : line,
          In l out ->
          l = DelattrUnableToDelete key
          \/ l = DelattrWentWrong (KeyError key) key).
Proof.
  unfold delattr_step.
  destruct (is_forbidden type_dir key s) eqn:Ef; cbn [stdout].
  - exists [DelattrUnableToDelete key]. split; [reflexivity |]. split.
    + intros k. simpl. split.
      * intros [E | []]. injection E as <-. now split.
      * intros [-> _]. now left.
    + intros l [<- | []]. now left.
  - destruct (dict_contains (__dict__ s) key); cbn [stdout].
    + exists []. split; [now rewrite app_nil_r |]. split.
      * intros k. simpl. split; [tauto |]. intros [-> H]. congruence.
      * intros l [].
    + exists [DelattrWentWrong (KeyError key) key].
      split; [reflexivity |]. split.
      * intros k. simpl. split.
        -- intros [E | []]. discriminate E.
        -- intros [-> H]. congruence.
      * intros l [<- | []]. now right.
Qed.

(** C8, on an instance that hides neither [_isforbidden] nor
    [_getforbiddenlist].  [__delattr__] returns without raising for
    every list of names.  The dictionary it leaves is the one it found
    without the names of the list that are not forbidden: a forbidden
    name keeps its entry, a stored name that is not forbidden is gone,
    and a name that was not stored changes nothing.  It prints one
    unable-to-delete warning per forbidden name and otherwise only the
    notice of a failed deletion. *)
Theorem delattr_semantics (names : list string) (s : instance) :
  _hasattr "_isforbidden" s = false ->
  _hasattr "_getforbiddenlist" s = false ->
  exists s' : instance,
    __delattr__ type_dir names s = (Return tt, s')
    /\ __dict__ s' =
       filter (fun kv =>
                 negb (existsb (String.eqb (fst kv)) names
                       && negb (is_forbidden type_dir (fst kv) s)))
              (__dict__ s)
    /\ (forall k : string,
          dict_get (__dict__ s') k =
          if existsb (String.eqb k) names
             && negb (is_forbidden type_dir k s)
          then None else dict_get (__dict__ s) k)
    /\ exists out : list line,
         stdout s' = (stdout s ++ out)%list
         /\ (forall k : string,
               In (DelattrUnableToDelete k) out <->
               In k names /\ is_forbidden type_dir k s = true)
         /\ (forall l : line,
               In l out ->
               exists k : string,
                 In k names
                 /\ (l = DelattrUnableToDelete k
                     \/ l = DelattrWentWrong (KeyError k) k)).
Proof.
  intros Hf Hl.
  assert (Hmain : exists s' : instance,
    __delattr__ type_dir names s = (Return tt, s')
    /\ __dict__ s' =
       filter (fun kv => negb (deletable type_dir names s (fst kv)))
         (__dict__ s)
    /\ exists out : list line,
         stdout s' = (stdout s ++ out)%list
         /\ (forall k : string,
               In (DelattrUnableToDelete k) out <->
               In k names /\ is_forbidden type_dir k s = true)
         /\ (forall l : line,
               In l out ->
               exists k : string,
                 In k names
                 /\ (l = DelattrUnableToDelete k
                     \/ l = DelattrWentWrong (KeyError k) k))).
  { revert s Hf Hl. induction names as [| key keys IH]; intros s Hf Hl.
    - exists s. split; [reflexivity |]. split.
      + symmetry. now apply filter_all_true.
      + exists []. split; [now rewrite app_nil_r |].
        split; [intros k; simpl; tauto | intros l []].
    - rewrite delattr_cons by assumption.
      destruct (IH (delattr_step type_dir key s)
                  (delattr_step_free type_dir key s _ Hf)
                  (delattr_step_free type_dir key s _ Hl))
        as [s' [Hrun [Hdict [out2 [Hout2 [Hwarn2 Hall2]]]]]].
      destruct (delattr_step_stdout key s)
        as [out1 [Hout1 [Hwarn1 Hall1]]].
      exists s'. split; [exact Hrun |]. split.
      + rewrite Hdict, delattr_step_dict, filter_filter.
        apply filter_ext. intros [k v]. unfold deletable. simpl.
        rewrite (is_forbidden_indep type_dir k
                   (delattr_step type_dir key s) s).
        destruct (String.eqb k key); simpl;
          destruct (existsb (String.eqb k) keys); simpl;
          now destruct (is_forbidden type_dir k s).
      + exists (out1 ++ out2)%list. split; [| split].
        * now rewrite Hout2, Hout1, app_assoc.
        * intros k. rewrite in_app_iff, Hwarn1, Hwarn2.
          rewrite (is_forbidden_indep type_dir k
                     (delattr_step type_dir key s) s). simpl.
          intuition (subst; auto).
        * intros l Hl'. apply in_app_or in Hl' as [Hl' | Hl'].
          -- exists key. split; [now left | now apply Hall1].
          -- destruct (Hall2 l Hl') as [k [Hk Hform]].
             exists k. split; [now right | exact Hform]. }
  destruct Hmain as [s' [Hrun [Hdict Hout]]].
  exists s'. split; [exact Hrun |]. split; [exact Hdict |].
  split; [| exact Hout].
  intros k. rewrite Hdict.
  rewrite (dict_get_filter (fun k => negb (deletable type_dir names s k))).
  unfold deletable.
  now destruct (existsb (String.eqb k) names
                && negb (is_forbidden type_dir k s)).
Qed.

End Delete.

Lemma delattr_semantics_witness :
  exists s' : instance,
    __delattr__ MyDataClass_dir ["_count"; "_type"; "missing"] backup
    = (Return tt, s')
    /\ __dict__ s' =
       filter (fun kv =>
                 negb (existsb (String.eqb (fst kv))
                         ["_count"; "_type"; "missing"]
                       && negb (is_forbidden MyDataClass_dir (fst kv) backup)))
              (__dict__ backup)
    /\ (forall k : string,
          dict_get (__dict__ s') k =
          if existsb (String.eqb k) ["_count"; "_type"; "missing"]
             && negb (is_forbidden MyDataClass_dir k backup)
          then None else dict_get (__dict__ backup) k)
    /\ exists out : list line,
         stdout s' = (stdout backup ++ out)%list
         /\ (forall k : string,
               In (DelattrUnableToDelete k) out <->
               In k ["_count"; "_type"; "missing"]
               /\ is_forbidden MyDataClass_dir k backup = true)
         /\ (forall l : line,
               In l out ->
               exists k : string,
                 In k ["_count"; "_type"; "missing"]
                 /\ (l = DelattrUnableToDelete k
                     \/ l = DelattrWentWrong (KeyError k) k)).
Proof.
  apply (delattr_semantics MyDataClass_dir
           ["_count"; "_type"; "missing"] backup); reflexivity.
Defined.

(** C8, as stated for every instance, fails on one that stores a value
    under [_isforbidden], as the keyword [isforbidden] leaves it: the
    check of the first name finds that value in place of the method,
    outside any [try], and the [TypeError] reaches the caller; the
    name is not deleted. *)
Lemma delattr_raises_when_isforbidden_is_hidden :
  __dict__ (constructed ["hello"]
              [("isforbidden", PyInt 1); ("type", PyString "full")])
  = [("_hello", PyNone); ("_isforbidden", PyInt 1);
     ("_type", PyString "full")]
  /\ __delattr__ MyDataClass_dir ["_type"]
       (constructed ["hello"]
          [("isforbidden", PyInt 1); ("type", PyString "full")])
     = (Raise TypeError,
        constructed ["hello"]
          [("isforbidden", PyInt 1); ("type", PyString "full")])
  /\ fst (__delattr__ MyDataClass_dir ["_type"]
            (constructed ["hello"]
               [("isforbidden", PyInt 1); ("type", PyString "full")]))
     <> Return tt.
Proof. repeat split. discriminate. Qed.

(* ================================================================= *)
(** ** One name through [protect] and [unprotect] *)

Section OneName.

Variable type_dir : list (string * bool).

(** [protect] on a spelling of [n] whose unprotected key is stored. *)
Lemma protect_arg_moves (arg n : string) (s : instance) (v : value) :
  unshadowed s ->
  not_a_method ("_" ++ n) ->
  strip_underscores arg = n ->
  undo_protected_name_prefix arg = n ->
  is_forbidden type_dir arg s = false ->
  dict_get (__dict__ s) n = Some v ->
  protect_arg type_dir arg s =
  (Return tt,
   Instance (dict_remove (dict_set (__dict__ s) ("_" ++ n) v) n)
            (stdout s)).
Proof.
  intros Hs Hnew Hstrip Hundo Hforb Hget.
  assert (Hold : not_a_method n)
    by (apply (unshadowed_not_a_method s); [exact Hs |];
        exact (dict_get_contains _ _ _ Hget)).
  rewrite protect_arg_run by (rewrite ?Hundo; assumption).
  rewrite Hforb, Hundo, Hstrip. unfold _hasattr.
  rewrite (dict_get_contains _ _ _ Hget). cbn [negb andb].
  assert (Hread : __getattr__ n s = (Return v, s))
    by now rewrite getattr_run, Hget.
  rewrite (updateattr_run type_dir _ _ _ _ _ Hs Hold Hnew Hread).
  cbn [snd]. unfold delattr_step.
  rewrite (is_forbidden_strip type_dir n arg _ s)
    by now rewrite <- Hundo, strip_undo.
  rewrite Hforb. cbn [__dict__ stdout].
  rewrite dict_contains_set, (dict_get_contains _ _ _ Hget), orb_true_r.
  reflexivity.
Qed.

(** [unprotect] on a plain name whose protected key is stored. *)
Lemma unprotect_arg_moves (n : string) (s : instance) (v : value) :
  unshadowed s ->
  not_a_method n ->
  plain n ->
  is_forbidden type_dir n s = false ->
  dict_get (__dict__ s) ("_" ++ n) = Some v ->
  unprotect_arg type_dir n s =
  (Return tt,
   Instance (dict_remove (dict_set (__dict__ s) n v) ("_" ++ n))
            (stdout s)).
Proof.
  intros Hs Hnew Hplain Hforb Hget.
  assert (Hold : not_a_method ("_" ++ n))
    by (apply (unshadowed_not_a_method s); [exact Hs |];
        exact (dict_get_contains _ _ _ Hget)).
  rewrite unprotect_arg_run by assumption.
  rewrite Hforb. unfold is_protected, _hasattr.
  rewrite (plain_no_underscore _ Hplain), Hplain.
  rewrite (dict_get_contains _ _ _ Hget). cbn [negb andb orb].
  assert (Hread : __getattr__ ("_" ++ n) s = (Return v, s))
    by now rewrite getattr_run, Hget.
  rewrite (updateattr_run type_dir _ _ _ _ _ Hs Hold Hnew Hread).
  cbn [snd]. unfold delattr_step.
  rewrite (is_forbidden_strip type_dir ("_" ++ n) n _ s)
    by apply strip_prefixed.
  rewrite Hforb. cbn [__dict__ stdout].
  rewrite dict_contains_set, (dict_get_contains _ _ _ Hget), orb_true_r.
  reflexivity.
Qed.

(** [unprotect] on a stored key that already carries the underscore:
    the source of the rename is the key behind one more underscore,
    which is made up with [None], written over the stored value and
    deleted again. *)
Lemma unprotect_arg_prefixed (k : string) (s : instance) :
  unshadowed s ->
  not_a_method ("__" ++ k) ->
  is_forbidden type_dir ("_" ++ k) s = false ->
  _hasattr ("_" ++ k) s = true ->
  _hasattr ("__" ++ k) s = false ->
  _hasattr ("___" ++ k) s = false ->
  unprotect_arg type_dir ("_" ++ k) s =
  (Return tt,
   Instance (dict_remove
               (dict_set (dict_set (__dict__ s) ("__" ++ k) PyNone)
                  ("_" ++ k) PyNone)
               ("__" ++ k))
            (stdout s)).
Proof.
  intros Hs Hold Hforb Hk H2 H3.
  assert (Hnew : not_a_method ("_" ++ k))
    by now apply (unshadowed_not_a_method s).
  rewrite unprotect_arg_run by assumption.
  rewrite Hforb. unfold is_protected.
  change ("_" ++ k) with (String underscore k) at 1.
  rewrite startswith_underscore_cons, Hk.
  replace (Ascii.eqb underscore underscore) with true by reflexivity.
  cbn [negb andb orb].
  unfold _hasattr in *.
  assert (Hread : __getattr__ ("__" ++ k) s =
                  (Return PyNone,
                   Instance (dict_set (__dict__ s) ("__" ++ k) PyNone)
                            (stdout s))).
  { rewrite getattr_run.
    rewrite (dict_get_not_contains _ _ H2).
    change ("_" ++ "__" ++ k) with ("___" ++ k).
    rewrite (dict_get_not_contains _ _ H3).
    now rewrite (unshadowed_method s "__setattr__" Hs eq_refl). }
  change ("_" ++ "_" ++ k) with ("__" ++ k).
  rewrite (updateattr_run type_dir _ _ _ _ _ Hs Hold Hnew Hread).
  cbn [snd]. unfold delattr_step. cbn [__dict__ stdout].
  rewrite (is_forbidden_strip type_dir ("__" ++ k) ("_" ++ k) _ s)
    by reflexivity.
  rewrite Hforb.
  rewrite !dict_contains_set, String.eqb_refl, orb_true_r.
  reflexivity.
Qed.

(** C1, for a name stored unprotected, away from the names of the
    methods.  Let [n] be a name without leading or trailing
    underscores that is not forbidden and is stored under the spelling
    [n] only, on an instance none of whose keys is the name of a method
    of the class, [_n] not being one either.  Then [protect(n)] moves
    the entry to [_n], [unprotect(n)] moves it back, and afterwards
    every key of the dictionary holds what it held before [protect];
    neither call raises or prints. *)
Theorem protect_unprotect_round_trip (n : string) (v : value)
  (s : instance) :
  plain n ->
  unshadowed s ->
  not_a_method ("_" ++ n) ->
  is_forbidden type_dir n s = false ->
  dict_get (__dict__ s) n = Some v ->
  dict_get (__dict__ s) ("_" ++ n) = None ->
  exists s1 s2 : instance,
    protect type_dir [n] s = (Return tt, s1)
    /\ dict_get (__dict__ s1) n = None
    /\ dict_get (__dict__ s1) ("_" ++ n) = Some v
    /\ unprotect type_dir [n] s1 = (Return tt, s2)
    /\ round_trip type_dir n s
    /\ (forall k : string,
          dict_get (__dict__ s2) k = dict_get (__dict__ s) k)
    /\ stdout s2 = stdout s.
Proof.
  intros Hplain Hs Hnew Hforb Hn Hpn.
  assert (Hold : not_a_method n)
    by (apply (unshadowed_not_a_method s); [exact Hs |];
        exact (dict_get_contains _ _ _ Hn)).
  pose proof (protect_arg_moves n n s v Hs Hnew Hplain
                (plain_undo n Hplain) Hforb Hn) as Hp.
  rewrite <- protect_one in Hp.
  set (s1 := Instance (dict_remove (dict_set (__dict__ s) ("_" ++ n) v) n)
                      (stdout s)) in *.
  assert (Hs1 : unshadowed s1)
    by exact (unshadowed_remove _ n (stdout s)
                (unshadowed_set s ("_" ++ n) v (stdout s) Hs Hnew)).
  assert (Hs1n : dict_get (__dict__ s1) n = None).
  { unfold s1. cbn [__dict__].
    now rewrite dict_get_remove, String.eqb_refl. }
  assert (Hs1p : dict_get (__dict__ s1) ("_" ++ n) = Some v).
  { unfold s1. cbn [__dict__].
    rewrite dict_get_remove, dict_get_set, String.eqb_refl.
    destruct (String.eqb_spec ("_" ++ n) n) as [E | _]; [| reflexivity].
    now apply prefixed_neq in E. }
  pose proof (unprotect_arg_moves n s1 v Hs1 Hold Hplain
                (eq_trans (is_forbidden_indep type_dir n s1 s) Hforb)
                Hs1p) as Hu.
  rewrite <- unprotect_one in Hu.
  set (s2 := Instance (dict_remove (dict_set (__dict__ s1) n v) ("_" ++ n))
                      (stdout s1)) in *.
  assert (Hall : forall k : string,
             dict_get (__dict__ s2) k = dict_get (__dict__ s) k).
  { intros k. unfold s2, s1. cbn [__dict__].
    repeat (rewrite dict_get_remove || rewrite dict_get_set).
    destruct (String.eqb_spec k ("_" ++ n)) as [-> | Hk1];
      [now rewrite Hpn |].
    destruct (String.eqb_spec k n) as [-> | Hk2];
      [now rewrite Hn | reflexivity]. }
  exists s1, s2.
  split; [exact Hp |]. split; [exact Hs1n |]. split; [exact Hs1p |].
  split; [exact Hu |]. split; [| split; [exact Hall | reflexivity]].
  unfold round_trip. rewrite Hp. cbn [snd]. rewrite Hu. cbn [snd].
  split; apply Hall.
Qed.

End OneName.

Lemma protect_unprotect_round_trip_witness :
  exists s1 s2 : instance,
    protect MyDataClass_dir ["type"] backup_unprotected = (Return tt, s1)
    /\ dict_get (__dict__ s1) "type" = None
    /\ dict_get (__dict__ s1) "_type" = Some (PyString "full")
    /\ unprotect MyDataClass_dir ["type"] s1 = (Return tt, s2)
    /\ round_trip MyDataClass_dir "type" backup_unprotected
    /\ (forall k : string,
          dict_get (__dict__ s2) k = dict_get (__dict__ backup_unprotected) k)
    /\ stdout s2 = stdout backup_unprotected.
Proof.
  apply (protect_unprotect_round_trip MyDataClass_dir "type"
           (PyString "full") backup_unprotected); reflexivity.
Defined.

(** C1, as stated for every name that is neither reserved nor forbidden,
    fails on an entry that is stored protected, which is how [__init__]
    stores every entry: [protect('type')] skips it, [unprotect('type')]
    renames it, and the key [_type] that held the value before is gone
    afterwards.  It also fails when the protected spelling is the name
    of a method: with [hasattr] stored, [protect('hasattr')] leaves the
    key [_hasattr], which hides the method, and [unprotect('hasattr')]
    raises [TypeError] and moves nothing back. *)
Lemma round_trip_fails_on_protected_entry :
  is_dunder_attrib "type" = false
  /\ is_forbidden MyDataClass_dir "type" backup = false
  /\ dict_get (__dict__ backup) "_type" = Some (PyString "full")
  /\ dict_get
       (__dict__
          (snd (unprotect MyDataClass_dir ["type"]
                  (snd (protect MyDataClass_dir ["type"] backup)))))
       "_type" = None
  /\ ~ round_trip MyDataClass_dir "type" backup
  /\ is_forbidden MyDataClass_dir "hasattr"
       (Instance [("hasattr", PyInt 1)] []) = false
  /\ protect MyDataClass_dir ["hasattr"] (Instance [("hasattr", PyInt 1)] [])
     = (Return tt, Instance [("_hasattr", PyInt 1)] [])
  /\ unprotect MyDataClass_dir ["hasattr"]
       (Instance [("_hasattr", PyInt 1)] [])
     = (Raise TypeError, Instance [("_hasattr", PyInt 1)] [])
  /\ ~ round_trip MyDataClass_dir "hasattr"
         (Instance [("hasattr", PyInt 1)] []).
Proof.
  repeat split.
  - intros [H _]. discriminate H.
  - intros [H _]. discriminate H.
Qed.

(** C2, at the input where the code departs from it.  On the sample
    instance [unprotect()] without names visits the key [_type], which
    is stored, protected and not forbidden; the entry is not renamed to
    [type]: the key stays [_type] and its value ['full'] is replaced by
    [None].  With the name [type] given, the same entry is renamed and
    keeps its value. *)
Theorem unprotect_without_names_overwrites :
  _isforbidden MyDataClass_dir "_type" backup = (Return false, backup)
  /\ _hasprotectedattr "_type" backup = (Return true, backup)
  /\ dict_get (__dict__ backup) "_type" = Some (PyString "full")
  /\ unprotect MyDataClass_dir [] backup =
     (Return tt,
      Instance
        [ ("_hello", PyNone); ("_count", PyString "162");
          ("_backup_set", PyString "76144912-5d67-4a6a-9f7d-3631bc901ad8");
          ("_backup_date", PyString "1651039155045");
          ("_type", PyNone) ]
        [])
  /\ unprotect MyDataClass_dir ["type"] backup =
     (Return tt,
      Instance
        [ ("_hello", PyNone); ("_count", PyString "162");
          ("_backup_set", PyString "76144912-5d67-4a6a-9f7d-3631bc901ad8");
          ("_backup_date", PyString "1651039155045");
          ("type", PyString "full") ]
        []).
Proof. repeat split. Qed.

(* ================================================================= *)
(** ** The shape of the keys is kept by [protect] and [unprotect] *)

Lemma for_each_invariant {A} (P : instance -> Prop) (Q : A -> Prop)
  (body : A -> M unit) :
  (forall x s, Q x -> P s ->
               fst (body x s) = Return tt /\ P (snd (body x s))) ->
  forall xs s, Forall Q xs -> P s ->
    fst (for_each xs body s) = Return tt /\ P (snd (for_each xs body s)).
Proof.
  intros Hbody xs. induction xs as [| x xs IH]; intros s HQ HP.
  - now split.
  - inversion HQ as [| ? ? Hx Hxs]; subst.
    destruct (Hbody x s Hx HP) as [Hret HP'].
    cbn [for_each]. unfold bind.
    destruct (body x s) as [o s']. cbn [fst snd] in *. subst o.
    now apply IH.
Qed.

Lemma well_formed_key_strip (k : string) :
  plain (undo_protected_name_prefix k) ->
  strip_underscores k = undo_protected_name_prefix k.
Proof. intros H. now rewrite <- (strip_undo k). Qed.

Lemma well_formed_key_cases (k : string) :
  plain (undo_protected_name_prefix k) ->
  plain k \/ exists n : string, plain n /\ k = "_" ++ n.
Proof.
  intros H. destruct (PyStr.startswith k "_") eqn:E.
  - apply startswith_underscore_inv in E as [t ->].
    rewrite undo_prefixed in H. right. now exists t.
  - rewrite undo_unprefixed in H by exact E. now left.
Qed.

Lemma prefixed_inj (a b : string) : "_" ++ a = "_" ++ b -> a = b.
Proof. intros H. now injection H. Qed.

Lemma doubly_prefixed_not_well_formed (n : string) :
  ~ plain (undo_protected_name_prefix ("__" ++ n)).
Proof.
  change ("__" ++ n) with ("_" ++ "_" ++ n). rewrite undo_prefixed.
  apply prefixed_not_plain.
Qed.

Lemma same_keys_well_formed (s s' : instance) :
  (forall x, _hasattr x s' = _hasattr x s) ->
  keys_well_formed s -> keys_well_formed s'.
Proof. intros E H k Hk. apply H. now rewrite <- E. Qed.

Lemma same_keys_single_spelling (s s' : instance) :
  (forall x, _hasattr x s' = _hasattr x s) ->
  single_spelling s -> single_spelling s'.
Proof. intros E H k [H1 H2]. apply (H k). now rewrite <- !E. Qed.

Lemma plain_not_dunder_method (n : string) :
  plain n -> not_a_method ("__" ++ n).
Proof.
  intros Hn. apply not_a_method_spec. intros Hin.
  simpl in Hin.
  repeat (destruct Hin as [E | Hin];
          [try discriminate E; injection E as <-; discriminate Hn |]).
  exact Hin.
Qed.

Lemma keys_usable_well_formed (s : instance) :
  keys_usable s -> keys_well_formed s.
Proof. intros H k Hk. exact (proj1 (H k Hk)). Qed.

Lemma keys_usable_unshadowed (s : instance) :
  keys_usable s -> unshadowed s.
Proof.
  intros H. apply unshadowed_spec. intros m Hm.
  destruct (_hasattr m s) eqn:E; [| reflexivity].
  destruct (H m E) as [Hp [H1 H2]].
  apply not_a_method_spec in H1, H2.
  destruct (PyStr.startswith m "_") eqn:Es.
  - apply startswith_underscore_inv in Es as [t ->].
    rewrite undo_prefixed in H2. contradiction.
  - rewrite undo_unprefixed in H1 by exact Es. contradiction.
Qed.

Lemma same_keys_usable (s s' : instance) :
  (forall x, _hasattr x s' = _hasattr x s) ->
  keys_usable s -> keys_usable s'.
Proof. intros E H k Hk. apply H. now rewrite <- E. Qed.

Lemma all_prefixed_well_formed (s : instance) :
  all_prefixed s -> keys_usable s /\ single_spelling s.
Proof.
  intros H. split.
  - intros k Hk. destruct (H k Hk) as [m [Hm ->]].
    now rewrite undo_prefixed.
  - intros k [Hk Hpk].
    destruct (H k Hk) as [m [Hm ->]].
    destruct (H _ Hpk) as [m' [[Hm' _] E]].
    apply prefixed_inj in E. subst m'.
    exact (prefixed_not_plain _ Hm').
Qed.

Lemma initprotect_all_prefixed (n : string) (v : value) (s : instance) :
  usable n -> all_prefixed s ->
  fst (self_call "_initprotect" (_initprotect n v) s) = Return tt
  /\ all_prefixed (snd (self_call "_initprotect" (_initprotect n v) s)).
Proof.
  intros Hn H.
  pose proof (keys_usable_unshadowed s (proj1 (all_prefixed_well_formed s H)))
    as Hs.
  rewrite self_call_run by now apply unshadowed_method.
  unfold _initprotect.
  rewrite self_call_run by now apply unshadowed_method.
  split; [reflexivity |].
  intros k. unfold _hasattr.
  cbn [__setattr__ setitem snd __dict__].
  rewrite dict_contains_set.
  destruct (String.eqb_spec k ("_" ++ n)) as [-> | _].
  - intros _. now exists n.
  - apply H.
Qed.

Lemma constructed_all_prefixed (args : list string)
  (kwargs : list (string * value)) :
  Forall usable args ->
  Forall usable (map fst kwargs) ->
  ~ In "self" (map fst kwargs) ->
  fst (__init__ args kwargs new_instance) = Return tt
  /\ all_prefixed (constructed args kwargs).
Proof.
  intros Hargs Hkw Hself. unfold constructed, __init__.
  assert (E : existsb (String.eqb "self") (map fst kwargs) = false).
  { destruct (existsb (String.eqb "self") (map fst kwargs)) eqn:E;
      [| reflexivity].
    apply existsb_eqb_In in E. contradiction. }
  rewrite E. unfold bind.
  assert (H0 : all_prefixed new_instance) by (intros k Hk; discriminate Hk).
  destruct (for_each_invariant all_prefixed usable
              (fun arg => self_call "_initprotect" (_initprotect arg PyNone))
              (fun x s Hx Hs => initprotect_all_prefixed x PyNone s Hx Hs)
              args new_instance Hargs H0) as [Hret1 H1].
  destruct (for_each args
              (fun arg => self_call "_initprotect" (_initprotect arg PyNone))
              new_instance)
    as [o s1]. cbn [fst snd] in *. subst o.
  apply (proj1 (Forall_map fst usable kwargs)) in Hkw.
  exact (for_each_invariant all_prefixed (fun kv => usable (fst kv))
           (fun kv => self_call "_initprotect"
                        (_initprotect (fst kv) (snd kv)))
           (fun kv s Hx Hs =>
              initprotect_all_prefixed (fst kv) (snd kv) s Hx Hs)
           kwargs s1 Hkw H1).
Qed.

Section KeyShape.

Variable type_dir : list (string * bool).

Lemma protect_arg_keeps_shape (arg : string) (s : instance) :
  usable (undo_protected_name_prefix arg) ->
  keys_usable s /\ single_spelling s ->
  fst (protect_arg type_dir arg s) = Return tt
  /\ (keys_usable (snd (protect_arg type_dir arg s))
      /\ single_spelling (snd (protect_arg type_dir arg s))).
Proof.
  intros Huse [Hkeys Hsingle].
  pose proof (keys_usable_unshadowed s Hkeys) as Hs.
  destruct Huse as [Hwf [Hm1 Hm2]].
  split; [now rewrite protect_arg_run |].
  destruct (negb (is_forbidden type_dir arg s)
            && _hasattr (strip_underscores arg) s) eqn:Hguard;
    [| rewrite protect_arg_skips by assumption; now split].
  apply andb_prop in Hguard as [Hforb Hunp].
  apply negb_true_iff in Hforb.
  set (n := undo_protected_name_prefix arg) in *.
  pose proof (well_formed_key_strip arg Hwf) as Hstrip. fold n in Hstrip.
  unfold _hasattr in Hunp. rewrite Hstrip in Hunp.
  destruct (dict_contains_get _ _ Hunp) as [v Hv].
  rewrite (protect_arg_moves type_dir arg n s v Hs Hm2 Hstrip eq_refl
             Hforb Hv).
  cbn [snd]. split.
  - intros x. unfold _hasattr. cbn [__dict__].
    rewrite dict_contains_remove, dict_contains_set.
    destruct (String.eqb_spec x n) as [-> | _]; [discriminate |].
    destruct (String.eqb_spec x ("_" ++ n)) as [-> | _].
    + intros _. rewrite undo_prefixed. now repeat split.
    + apply Hkeys.
  - intros x. unfold _hasattr. cbn [__dict__].
    rewrite !dict_contains_remove, !dict_contains_set.
    destruct (String.eqb_spec x n) as [-> | Hxn];
      [intros [H _]; discriminate H |].
    destruct (String.eqb_spec ("_" ++ x) n) as [E | _];
      [intros [_ H]; discriminate H |].
    cbn [negb andb].
    destruct (String.eqb_spec x ("_" ++ n)) as [-> | _].
    + destruct (String.eqb_spec ("_" ++ "_" ++ n) ("_" ++ n)) as [E | _];
        [now apply prefixed_neq in E |].
      intros [_ H]. apply Hkeys in H. destruct H as [H _].
      exact (doubly_prefixed_not_well_formed n H).
    + destruct (String.eqb_spec ("_" ++ x) ("_" ++ n)) as [E | _];
        [apply prefixed_inj in E; contradiction |].
      apply Hsingle.
Qed.

Lemma unprotect_arg_keeps_shape (arg : string) (s : instance) :
  usable (undo_protected_name_prefix arg) ->
  keys_usable s /\ single_spelling s ->
  fst (unprotect_arg type_dir arg s) = Return tt
  /\ (keys_usable (snd (unprotect_arg type_dir arg s))
      /\ single_spelling (snd (unprotect_arg type_dir arg s))).
Proof.
  intros Huse [Hkeys Hsingle].
  pose proof (keys_usable_unshadowed s Hkeys) as Hs.
  destruct Huse as [Hwf [Hm1 Hm2]].
  assert (Hno2 : forall m, plain m -> _hasattr ("__" ++ m) s = false).
  { intros m Hm. destruct (_hasattr ("__" ++ m) s) eqn:E; [| reflexivity].
    apply Hkeys in E. destruct E as [E _].
    now apply doubly_prefixed_not_well_formed in E. }
  destruct (well_formed_key_cases arg Hwf) as [Hplain | [n [Hn ->]]].
  - (* a plain name: its protected key is moved *)
    rewrite (plain_undo arg Hplain) in Hm1, Hm2.
    split; [now rewrite unprotect_arg_run |].
    destruct (negb (is_forbidden type_dir arg s) && is_protected arg s)
      eqn:Hguard;
      [| rewrite unprotect_arg_skips by assumption; now split].
    apply andb_prop in Hguard as [Hforb Hprot].
    apply negb_true_iff in Hforb.
    unfold is_protected in Hprot.
    rewrite (plain_no_underscore _ Hplain), Hplain in Hprot.
    rewrite (Hno2 arg Hplain) in Hprot. cbn [andb orb] in Hprot.
    rewrite orb_false_r in Hprot.
    destruct (dict_contains_get _ _ Hprot) as [v Hv].
    rewrite (unprotect_arg_moves type_dir arg s v Hs Hm1 Hplain Hforb Hv).
    cbn [snd]. split.
    + intros x. unfold _hasattr. cbn [__dict__].
      rewrite dict_contains_remove, dict_contains_set.
      destruct (String.eqb_spec x ("_" ++ arg)) as [-> | _];
        [discriminate |].
      destruct (String.eqb_spec x arg) as [-> | _].
      * intros _. rewrite plain_undo by exact Hplain. now repeat split.
      * apply Hkeys.
    + intros x. unfold _hasattr. cbn [__dict__].
      rewrite !dict_contains_remove, !dict_contains_set.
      destruct (String.eqb_spec x ("_" ++ arg)) as [-> | Hx];
        [intros [H _]; discriminate H |].
      destruct (String.eqb_spec ("_" ++ x) ("_" ++ arg)) as [E | Hpx];
        [intros [_ H]; discriminate H |].
      cbn [negb andb].
      destruct (String.eqb_spec x arg) as [-> | _]; [contradiction |].
      destruct (String.eqb_spec ("_" ++ x) arg) as [E | _].
      * rewrite <- E in Hplain. now apply prefixed_not_plain in Hplain.
      * apply Hsingle.
  - (* a stored key: the keys are the same afterwards *)
    rewrite undo_prefixed in Hm1, Hm2.
    assert (Hm3 : not_a_method ("__" ++ n))
      by now apply plain_not_dunder_method.
    split; [now rewrite unprotect_arg_run |].
    destruct (negb (is_forbidden type_dir ("_" ++ n) s)
              && is_protected ("_" ++ n) s) eqn:Hguard;
      [| rewrite unprotect_arg_skips by assumption; now split].
    apply andb_prop in Hguard as [Hforb Hprot].
    apply negb_true_iff in Hforb.
    assert (Hstored : _hasattr ("_" ++ n) s = true).
    { unfold is_protected in Hprot.
      destruct (_hasattr ("_" ++ n) s) eqn:E; [reflexivity |].
      rewrite andb_false_r, strip_prefixed, Hn, E, (Hno2 n Hn) in Hprot.
      discriminate Hprot. }
    assert (H3 : _hasattr ("___" ++ n) s = false).
    { destruct (_hasattr ("___" ++ n) s) eqn:E; [| reflexivity].
      apply Hkeys in E. destruct E as [E _].
      change ("___" ++ n) with ("__" ++ "_" ++ n) in E.
      now apply doubly_prefixed_not_well_formed in E. }
    rewrite (unprotect_arg_prefixed type_dir n s Hs Hm3 Hforb Hstored
               (Hno2 n Hn) H3).
    cbn [snd].
    assert (Hsame : forall x,
               _hasattr x
                 (Instance
                    (dict_remove
                       (dict_set
                          (dict_set (__dict__ s) ("__" ++ n) PyNone)
                          ("_" ++ n) PyNone) ("__" ++ n)) (stdout s))
               = _hasattr x s).
    { intros x. unfold _hasattr. cbn [__dict__].
      rewrite dict_contains_remove, !dict_contains_set.
      destruct (String.eqb_spec x ("__" ++ n)) as [-> | _].
      - symmetry. apply (Hno2 n Hn).
      - destruct (String.eqb_spec x ("_" ++ n)) as [-> | _];
          [symmetry; exact Hstored | reflexivity]. }
    split.
    + exact (same_keys_usable _ _ Hsame Hkeys).
    + exact (same_keys_single_spelling _ _ Hsame Hsingle).
Qed.

End KeyShape.

Section Reachable.

Variable type_dir : list (string * bool).

Lemma usable_undo (n : string) :
  usable n -> usable (undo_protected_name_prefix n).
Proof. intros H. now rewrite (plain_undo n (proj1 H)). Qed.

Lemma run_call_keeps_shape (c : call) (s : instance) :
  usable_call c ->
  keys_usable s /\ single_spelling s ->
  fst (run_call type_dir c s) = Return tt
  /\ (keys_usable (snd (run_call type_dir c s))
      /\ single_spelling (snd (run_call type_dir c s))).
Proof.
  intros Hc Hs.
  pose proof (keys_usable_unshadowed s (proj1 Hs)) as Hfree.
  assert (Hnames : Forall (fun a => usable (undo_protected_name_prefix a))
                     (match call_names c with
                      | [] => dict_keys (__dict__ s)
                      | _ => call_names c
                      end)).
  { destruct (call_names c) as [| n names] eqn:E.
    - apply Forall_forall. intros k Hk.
      apply (proj1 Hs). now apply dict_contains_keys.
    - unfold usable_call in Hc. rewrite E in Hc.
      apply Forall_forall. intros k Hk.
      rewrite Forall_forall in Hc. now apply usable_undo, Hc. }
  destruct c as [names | names]; cbn [run_call call_names] in *.
  - rewrite self_call_run by now apply unshadowed_method.
    rewrite protect_run.
    exact (for_each_invariant _ _ _
             (protect_arg_keeps_shape type_dir) _ s Hnames Hs).
  - rewrite self_call_run by now apply unshadowed_method.
    rewrite unprotect_run.
    exact (for_each_invariant _ _ _
             (unprotect_arg_keeps_shape type_dir) _ s Hnames Hs).
Qed.

Lemma run_calls_keeps_shape (cs : list call) (s : instance) :
  Forall usable_call cs ->
  keys_usable s /\ single_spelling s ->
  keys_usable (run_calls type_dir cs s)
  /\ single_spelling (run_calls type_dir cs s).
Proof.
  revert s. induction cs as [| c cs IH]; intros s Hcs Hs; [exact Hs |].
  inversion Hcs as [| ? ? Hc Hrest]; subst.
  cbn [run_calls]. apply IH; [exact Hrest |].
  now apply run_call_keeps_shape.
Qed.

(** C3, for plain names away from the names of the methods.  Call a
    name usable when it has no leading or trailing underscore and
    neither it nor its protected spelling is the name of a method of
    the class.  Build the instance from usable names, no keyword being
    [self], and call [protect] and [unprotect] any number of times,
    each time with usable names or with none.  Construction returns,
    and between the calls no name is stored under both [name] and
    [_name].  In such a state [protect(n)] of a stored, not forbidden
    usable [n] leaves the value under [_n] and removes the key [n],
    and [unprotect(n)] of a usable [n] stored as [_n] leaves the value
    under [n] and removes the key [_n]. *)
Theorem single_spelling_for_plain_names (args : list string)
  (kwargs : list (string * value)) (cs : list call) :
  Forall usable args ->
  Forall usable (map fst kwargs) ->
  ~ In "self" (map fst kwargs) ->
  Forall usable_call cs ->
  let s := run_calls type_dir cs (constructed args kwargs) in
  fst (__init__ args kwargs new_instance) = Return tt
  /\ single_spelling s
  /\ (forall (n : string) (v : value),
        usable n -> is_forbidden type_dir n s = false ->
        dict_get (__dict__ s) n = Some v ->
        let s' := snd (protect type_dir [n] s) in
        dict_get (__dict__ s') ("_" ++ n) = Some v
        /\ _hasattr n s' = false)
  /\ (forall (n : string) (v : value),
        usable n -> is_forbidden type_dir n s = false ->
        dict_get (__dict__ s) ("_" ++ n) = Some v ->
        let s' := snd (unprotect type_dir [n] s) in
        dict_get (__dict__ s') n = Some v
        /\ _hasattr ("_" ++ n) s' = false).
Proof.
  intros Hargs Hkw Hself Hcs s.
  destruct (constructed_all_prefixed args kwargs Hargs Hkw Hself)
    as [Hret Hinit].
  destruct (run_calls_keeps_shape cs _ Hcs
              (all_prefixed_well_formed _ Hinit)) as [Hkeys Hsingle].
  fold s in Hkeys, Hsingle.
  pose proof (keys_usable_unshadowed s Hkeys) as Hs.
  split; [exact Hret |]. split; [exact Hsingle |]. split.
  - intros n v [Hn [Hm1 Hm2]] Hforb Hv s'. subst s'.
    rewrite protect_one.
    rewrite (protect_arg_moves type_dir n n s v Hs Hm2 Hn (plain_undo n Hn)
               Hforb Hv).
    unfold _hasattr. cbn [snd __dict__].
    rewrite dict_get_remove, dict_get_set, dict_contains_remove.
    rewrite !String.eqb_refl.
    destruct (String.eqb_spec ("_" ++ n) n) as [E | _]; [| now split].
    now apply prefixed_neq in E.
  - intros n v [Hn [Hm1 Hm2]] Hforb Hv s'. subst s'.
    rewrite unprotect_one.
    rewrite (unprotect_arg_moves type_dir n s v Hs Hm1 Hn Hforb Hv).
    unfold _hasattr. cbn [snd __dict__].
    rewrite dict_get_remove, dict_get_set, dict_contains_remove.
    rewrite !String.eqb_refl.
    destruct (String.eqb_spec n ("_" ++ n)) as [E | _]; [| now split].
    symmetry in E. now apply prefixed_neq in E.
Qed.

End Reachable.

Lemma single_spelling_for_plain_names_witness :
  let s := run_calls MyDataClass_dir
             [Unprotect ["type"]; Protect ["type"]; Unprotect []; Protect []]
             (constructed ["hello"] sample_data) in
  fst (__init__ ["hello"] sample_data new_instance) = Return tt
  /\ single_spelling s
  /\ (forall (n : string) (v : value),
        usable n -> is_forbidden MyDataClass_dir n s = false ->
        dict_get (__dict__ s) n = Some v ->
        let s' := snd (protect MyDataClass_dir [n] s) in
        dict_get (__dict__ s') ("_" ++ n) = Some v
        /\ _hasattr n s' = false)
  /\ (forall (n : string) (v : value),
        usable n -> is_forbidden MyDataClass_dir n s = false ->
        dict_get (__dict__ s) ("_" ++ n) = Some v ->
        let s' := snd (unprotect MyDataClass_dir [n] s) in
        dict_get (__dict__ s') n = Some v
        /\ _hasattr ("_" ++ n) s' = false).
Proof.
  apply (single_spelling_for_plain_names MyDataClass_dir
           ["hello"] sample_data
           [Unprotect ["type"]; Protect ["type"]; Unprotect []; Protect []]).
  - repeat constructor.
  - repeat constructor.
  - simpl. intuition discriminate.
  - repeat constructor.
Defined.

(** C3, as stated for every name and every reachable state, fails once
    names with underscores are used.  Built from the keyword [_a] the
    instance stores [__a].  [unprotect('a')] then reads the value of
    [__a] and writes it under [a], without removing the key it read: a
    copy, not a move.  [unprotect('_a')] then renames [__a] to [_a], and
    the name [a] is stored under both [a] and [_a].  The renames also
    fail to move once a key is the name of a method: built from the
    plain keywords [hasattr] and [type], the instance stores
    [_hasattr], [unprotect('type')] raises [TypeError] and [_type]
    stays where it was. *)
Lemma single_spelling_fails_for_prefixed_names :
  __dict__ (constructed ["hello"] [("_a", PyInt 1)]) =
    [("_hello", PyNone); ("__a", PyInt 1)]
  /\ __dict__ (run_calls MyDataClass_dir [Unprotect ["a"]]
                 (constructed ["hello"] [("_a", PyInt 1)])) =
     [("_hello", PyNone); ("__a", PyInt 1); ("a", PyInt 1)]
  /\ __dict__ (run_calls MyDataClass_dir [Unprotect ["a"]; Unprotect ["_a"]]
                 (constructed ["hello"] [("_a", PyInt 1)])) =
     [("_hello", PyNone); ("a", PyInt 1); ("_a", PyInt 1)]
  /\ ~ single_spelling
         (run_calls MyDataClass_dir [Unprotect ["a"]; Unprotect ["_a"]]
            (constructed ["hello"] [("_a", PyInt 1)]))
  /\ unprotect MyDataClass_dir ["type"]
       (constructed ["hello"]
          [("hasattr", PyInt 1); ("type", PyString "full")])
     = (Raise TypeError,
        Instance [("_hello", PyNone); ("_hasattr", PyInt 1);
                  ("_type", PyString "full")] []).
Proof.
  repeat split.
  intros H. apply (H "a"). now split.
Qed.

(* ================================================================= *)
(** ** What a call can reach, raising or not *)
















Section Confined.

Variable type_dir : list (string * bool).
















End Confined.




(* ================================================================= *)
(** ** More on the naming utilities *)

(** X1.  Whenever [make_protected_name_prefix] returns, what it returns
    carries the protection prefix, and [undo_protected_name_prefix]
    gives the name back. *)
Theorem undo_after_make (name p : string) (ignore : bool) :
  make_protected_name_prefix name ignore = Return p ->
  undo_protected_name_prefix p = name
  /\ is_protected_name_prefix p = true
  /\ String.length p = S (String.length name).
Proof.
  intros H.
  assert (E : p = "_" ++ name).
  { unfold make_protected_name_prefix in H.
    destruct (ignore && (2 <? String.length name)%nat);
      [destruct (PyStr.startswith name "__") |];
      congruence. }
  subst p. split; [apply undo_prefixed |]. split; [| reflexivity].
  unfold is_protected_name_prefix.
  change ("_" ++ name) with (String underscore name).
  now rewrite startswith_underscore_cons.
Qed.

Lemma undo_after_make_witness :
  undo_protected_name_prefix "_type" = "type"
  /\ is_protected_name_prefix "_type" = true
  /\ String.length "_type" = S (String.length "type").
Proof.
  apply (undo_after_make "type" "_type" true). reflexivity.
Defined.

(** X2.  Prefixing what [undo_protected_name_prefix] returns gives the
    name back exactly when the name carried the prefix; a name without
    it is left alone by [undo_protected_name_prefix]. *)
Theorem make_after_undo (name : string) :
  (make_protected_name_prefix (undo_protected_name_prefix name) false
   = Return name
   <-> is_protected_name_prefix name = true)
  /\ (is_protected_name_prefix name = false ->
      undo_protected_name_prefix name = name).
Proof.
  unfold is_protected_name_prefix. split; [split |].
  - rewrite make_protected_unguarded. intros E.
    injection E as E. rewrite <- E.
    change ("_" ++ undo_protected_name_prefix name)
      with (String underscore (undo_protected_name_prefix name)).
    now rewrite startswith_underscore_cons.
  - intros H. apply startswith_underscore_inv in H as [t ->].
    now rewrite undo_prefixed.
  - apply undo_unprefixed.
Qed.

Lemma make_after_undo_witness :
  (make_protected_name_prefix (undo_protected_name_prefix "type") false
   = Return "type"
   <-> is_protected_name_prefix "type" = true)
  /\ undo_protected_name_prefix "type" = "type".
Proof.
  destruct (make_after_undo "type") as [H1 H2].
  split; [exact H1 | apply H2; reflexivity].
Defined.




Section ForbiddenNames.

Variable type_dir : list (string * bool).

(** X3.  The forbidden list is made of the names of the class that are
    neither callable nor dunder names, whatever the instance stores: two
    instances of one class have the same list. *)
Theorem forbiddenlist_of_class (s s' : instance) (name : string) :
  (In name (_getforbiddenlist type_dir s) <->
   In name (dir_type type_dir)
   /\ callable_on_type type_dir name = false
   /\ is_dunder_attrib name = false)
  /\ _getforbiddenlist type_dir s = _getforbiddenlist type_dir s'.
Proof.
  split; [| apply _getforbiddenlist_indep].
  unfold _getforbiddenlist. rewrite filter_In.
  rewrite (filter_all_true
             (fun n => existsb (String.eqb n) (dir_self type_dir s))).
  - rewrite andb_true_iff, !negb_true_iff. tauto.
  - intros x Hx. apply existsb_eqb_In. unfold dir_self.
    apply in_or_app. now right.
Qed.


End ForbiddenNames.


(* ================================================================= *)
(** ** What [__init__] leaves *)

Lemma contains_fold_set {A} (f : A -> string) (g : A -> value)
  (xs : list A) (d : pydict) (k : string) :
  dict_contains
    (fold_left (fun d x => dict_set d ("_" ++ f x) (g x)) xs d) k
  = dict_contains d k || existsb (fun x => String.eqb k ("_" ++ f x)) xs.
Proof.
  revert d. induction xs as [| x xs IH]; intros d; cbn [fold_left existsb].
  - now rewrite orb_false_r.
  - rewrite IH, dict_contains_set.
    now destruct (String.eqb k ("_" ++ f x)), (dict_contains d k).
Qed.

Lemma get_fold_set_other {A} (f : A -> string) (g : A -> value)
  (xs : list A) (d : pydict) (n : string) :
  (forall x, In x xs -> f x <> n) ->
  dict_get (fold_left (fun d x => dict_set d ("_" ++ f x) (g x)) xs d)
    ("_" ++ n)
  = dict_get d ("_" ++ n).
Proof.
  revert d. induction xs as [| x xs IH]; intros d H; [reflexivity |].
  cbn [fold_left]. rewrite IH by (intros y Hy; apply H; now right).
  rewrite dict_get_set.
  destruct (String.eqb_spec ("_" ++ n) ("_" ++ f x)) as [E | _];
    [| reflexivity].
  apply prefixed_inj in E. symmetry in E.
  now apply H in E; [| left].
Qed.

Lemma get_fold_set_last {A} (f : A -> string) (g : A -> value)
  (xs : list A) (d : pydict) (x : A) :
  NoDup (map f xs) -> In x xs ->
  dict_get (fold_left (fun d x => dict_set d ("_" ++ f x) (g x)) xs d)
    ("_" ++ f x)
  = Some (g x).
Proof.
  revert d. induction xs as [| y ys IH]; intros d Hnd Hin; [destruct Hin |].
  cbn [map] in Hnd. inversion Hnd as [| ? ? Hy Hys]; subst.
  cbn [fold_left]. destruct Hin as [-> | Hin].
  - rewrite get_fold_set_other.
    + now rewrite dict_get_set, String.eqb_refl.
    + intros z Hz E. apply Hy. rewrite <- E. now apply in_map.
  - now apply IH.
Qed.

Lemma get_fold_set_none (xs : list string) (d : pydict) (n : string) :
  In n xs \/ dict_get d ("_" ++ n) = Some PyNone ->
  dict_get (fold_left (fun d arg => dict_set d ("_" ++ arg) PyNone) xs d)
    ("_" ++ n)
  = Some PyNone.
Proof.
  revert d. induction xs as [| y ys IH]; intros d H; cbn [fold_left].
  - destruct H as [[] | H]. exact H.
  - apply IH. rewrite dict_get_set.
    destruct (String.eqb_spec ("_" ++ n) ("_" ++ y)) as [_ | Hne];
      [now right |].
    destruct H as [[-> | H] | H]; [contradiction | now left | now right].
Qed.

Lemma for_each_initprotect {A} (f : A -> string) (g : A -> value)
  (xs : list A) (s : instance) :
  _hasattr "_initprotect" s = false ->
  _hasattr "__setattr__" s = false ->
  (forall x, In x xs -> f x <> "initprotect" /\ f x <> "_setattr__") ->
  for_each xs (fun x => self_call "_initprotect" (_initprotect (f x) (g x)))
    s =
  (Return tt,
   Instance (fold_left (fun d x => dict_set d ("_" ++ f x) (g x)) xs
               (__dict__ s))
            (stdout s)).
Proof.
  revert s. induction xs as [| x xs IH]; intros s H1 H2 Hxs.
  - now destruct s.
  - cbn [for_each fold_left]. unfold bind.
    rewrite self_call_run by exact H1. unfold _initprotect at 1.
    rewrite self_call_run by exact H2.
    unfold __setattr__ at 1, setitem at 1.
    destruct (Hxs x (or_introl eq_refl)) as [Hx1 Hx2].
    rewrite IH; [reflexivity | | |].
    + unfold _hasattr. cbn [__dict__]. rewrite dict_contains_set.
      destruct (String.eqb_spec "_initprotect" ("_" ++ f x)) as [E | _];
        [| exact H1].
      apply prefixed_inj in E. now symmetry in E.
    + unfold _hasattr. cbn [__dict__]. rewrite dict_contains_set.
      destruct (String.eqb_spec "__setattr__" ("_" ++ f x)) as [E | _];
        [| exact H2].
      apply prefixed_inj in E. now symmetry in E.
    + intros y Hy. apply Hxs. now right.
Qed.

Lemma constructed_run (args : list string) (kwargs : list (string * value)) :
  constructible args kwargs ->
  __init__ args kwargs new_instance =
  (Return tt,
   Instance
     (fold_left (fun d kv => dict_set d ("_" ++ fst kv) (snd kv)) kwargs
        (fold_left (fun d arg => dict_set d ("_" ++ arg) PyNone) args []))
     []).
Proof.
  intros [Hself Hnames]. unfold __init__.
  assert (E : existsb (String.eqb "self") (map fst kwargs) = false).
  { destruct (existsb (String.eqb "self") (map fst kwargs)) eqn:E;
      [| reflexivity].
    apply existsb_eqb_In in E. contradiction. }
  rewrite E. unfold bind.
  rewrite (for_each_initprotect (fun arg => arg) (fun _ => PyNone));
    [| reflexivity | reflexivity | intros x Hx; apply Hnames; now left].
  assert (Hfree : forall m,
             m = "initprotect" \/ m = "_setattr__" ->
             dict_contains
               (fold_left (fun d arg => dict_set d ("_" ++ arg) PyNone)
                  args []) ("_" ++ m) = false).
  { intros m Hm.
    rewrite (contains_fold_set (fun arg => arg) (fun _ => PyNone)).
    cbn [dict_contains dict_get orb].
    destruct (existsb (fun x => String.eqb ("_" ++ m) ("_" ++ x)) args)
      eqn:Ex; [| reflexivity].
    apply existsb_exists in Ex as [x [Hx Ex]].
    apply String.eqb_eq, prefixed_inj in Ex. subst x.
    destruct (Hnames m (or_introl Hx)) as [N1 N2].
    now destruct Hm. }
  rewrite (for_each_initprotect fst snd).
  - reflexivity.
  - apply (Hfree "initprotect"). now left.
  - apply (Hfree "_setattr__"). now right.
  - intros x Hx. apply Hnames. right. now apply in_map.
Qed.

Lemma constructed_keys (args : list string) (kwargs : list (string * value))
  (k : string) :
  constructible args kwargs ->
  _hasattr k (constructed args kwargs) = true <->
  exists name : string,
    k = "_" ++ name /\ (In name args \/ In name (map fst kwargs)).
Proof.
  intros Hc.
  unfold constructed, _hasattr. rewrite constructed_run by exact Hc.
  cbn [snd __dict__].
  rewrite (contains_fold_set fst snd).
  rewrite (contains_fold_set (fun arg => arg) (fun _ => PyNone)).
  cbn [dict_contains dict_get orb]. rewrite orb_true_iff, !existsb_exists.
  split.
  - intros [[x [Hx E]] | [x [Hx E]]]; apply String.eqb_eq in E.
    + exists x. split; [exact E | now left].
    + exists (fst x). split; [exact E | right; now apply in_map].
  - intros [name [-> [H | H]]].
    + left. exists name. split; [exact H | apply String.eqb_refl].
    + right. apply in_map_iff in H as [x [<- Hx]].
      exists x. split; [exact Hx | apply String.eqb_refl].
Qed.

(** X5.  Given names among which no keyword is [self] and none is
    [initprotect] or [_setattr__], [__init__] returns without raising
    or printing, and the keys it leaves are exactly the names it was
    given, positional or keyword, each behind one underscore. *)
Theorem init_stores_protected_spellings (args : list string)
  (kwargs : list (string * value)) :
  constructible args kwargs ->
  fst (__init__ args kwargs new_instance) = Return tt
  /\ stdout (constructed args kwargs) = []
  /\ forall k : string,
       _hasattr k (constructed args kwargs) = true <->
       exists name : string,
         k = "_" ++ name /\ (In name args \/ In name (map fst kwargs)).
Proof.
  intros Hc. split; [| split].
  - now rewrite constructed_run.
  - unfold constructed. now rewrite constructed_run.
  - intros k. now apply constructed_keys.
Qed.

(** X6.  Given such names, with keyword names that are pairwise
    different, as Python passes them, [__init__] stores each keyword's
    value under its protected spelling, and [None] for a positional
    name that is not also a keyword. *)
Theorem init_stores_values (args : list string)
  (kwargs : list (string * value)) :
  constructible args kwargs ->
  NoDup (map fst kwargs) ->
  (forall (name : string) (v : value),
      In (name, v) kwargs ->
      dict_get (__dict__ (constructed args kwargs)) ("_" ++ name) = Some v)
  /\ (forall name : string,
        In name args -> ~ In name (map fst kwargs) ->
        dict_get (__dict__ (constructed args kwargs)) ("_" ++ name)
        = Some PyNone).
Proof.
  intros Hc Hnd. unfold constructed. rewrite constructed_run by exact Hc.
  cbn [snd __dict__]. split.
  - intros name v Hin.
    exact (get_fold_set_last fst snd kwargs _ (name, v) Hnd Hin).
  - intros name Hin Hout.
    rewrite (get_fold_set_other fst snd).
    + apply get_fold_set_none. now left.
    + intros x Hx E. apply Hout. rewrite <- E. now apply in_map.
Qed.

Lemma sample_constructible : constructible ["hello"] sample_data.
Proof.
  split; simpl; [intuition discriminate |].
  intros name H.
  repeat (destruct H as [H | H]; try (subst name; split; discriminate));
    contradiction.
Qed.

Lemma init_stores_protected_spellings_witness :
  fst (__init__ ["hello"] sample_data new_instance) = Return tt
  /\ stdout (constructed ["hello"] sample_data) = []
  /\ forall k : string,
       _hasattr k (constructed ["hello"] sample_data) = true <->
       exists name : string,
         k = "_" ++ name
         /\ (In name ["hello"] \/ In name (map fst sample_data)).
Proof.
  apply (init_stores_protected_spellings ["hello"] sample_data).
  exact sample_constructible.
Defined.

Lemma init_stores_values_witness :
  (forall (name : string) (v : value),
      In (name, v) sample_data ->
      dict_get (__dict__ (constructed ["hello"] sample_data)) ("_" ++ name)
      = Some v)
  /\ (forall name : string,
        In name ["hello"] -> ~ In name (map fst sample_data) ->
        dict_get (__dict__ (constructed ["hello"] sample_data))
          ("_" ++ name)
        = Some PyNone).
Proof.
  apply (init_stores_values ["hello"] sample_data).
  - exact sample_constructible.
  - repeat constructor; simpl; intuition discriminate.
Defined.

(** X7.  Given such names, [hasattr] not being one of them, right
    after [__init__] no name is classified as unprotected, and every
    given name without leading or trailing underscores is classified as
    protected; both checks return and change nothing. *)
Theorem constructed_entries_are_protected (args : list string)
  (kwargs : list (string * value)) :
  constructible args kwargs ->
  ~ (In "hasattr" args \/ In "hasattr" (map fst kwargs)) ->
  (forall attr : string,
      _hasunprotectedattr attr (constructed args kwargs)
      = (Return false, constructed args kwargs))
  /\ (forall name : string,
        plain name ->
        In name args \/ In name (map fst kwargs) ->
        _hasprotectedattr name (constructed args kwargs)
        = (Return true, constructed args kwargs)).
Proof.
  intros Hc Hno.
  assert (Hfree : _hasattr "_hasattr" (constructed args kwargs) = false).
  { destruct (_hasattr "_hasattr" (constructed args kwargs)) eqn:E;
      [| reflexivity].
    apply (constructed_keys args kwargs _ Hc) in E as [name [E Hin]].
    apply prefixed_inj in E. subst name. contradiction. }
  split.
  - intros attr. rewrite hasunprotected_run by exact Hfree.
    destruct (_hasattr (strip_underscores attr) (constructed args kwargs))
      eqn:E; [| reflexivity].
    apply (constructed_keys args kwargs _ Hc) in E as [name [E _]].
    now apply strip_neq_prefixed in E.
  - intros name Hplain Hin. rewrite hasprotected_run by exact Hfree.
    unfold is_protected.
    rewrite (plain_no_underscore _ Hplain), Hplain. cbn [andb orb].
    assert (H : _hasattr ("_" ++ name) (constructed args kwargs) = true).
    { apply (constructed_keys args kwargs _ Hc). now exists name. }
    now rewrite H.
Qed.

Lemma constructed_entries_are_protected_witness :
  _hasunprotectedattr "type" (constructed ["hello"] sample_data)
  = (Return false, constructed ["hello"] sample_data)
  /\ _hasprotectedattr "type" (constructed ["hello"] sample_data)
     = (Return true, constructed ["hello"] sample_data).
Proof.
  destruct (constructed_entries_are_protected ["hello"] sample_data
              sample_constructible) as [H1 H2].
  - simpl. intuition discriminate.
  - split; [apply H1 |].
    apply H2; [reflexivity | right; simpl; tauto].
Defined.

(* ================================================================= *)
(** ** Reading, and renaming a stored entry *)

(** X8.  A read finds what was written: after [__setattr__] of a name,
    [__getattr__] of that name returns the value and changes nothing;
    and, on an instance that does not hide [__setattr__], a value
    stored by [_initprotect], under the protected spelling, is returned
    for the plain name when the plain name is not itself a key. *)
Theorem getattr_after_setattr (k : string) (v : value) (s : instance) :
  __getattr__ k (snd (__setattr__ k v s))
  = (Return v, snd (__setattr__ k v s))
  /\ (_hasattr "__setattr__" s = false ->
      _hasattr k s = false ->
      fst (_initprotect k v s) = Return tt
      /\ __getattr__ k (snd (_initprotect k v s))
         = (Return v, snd (_initprotect k v s))).
Proof.
  split.
  - rewrite getattr_run. cbn [__setattr__ setitem snd __dict__].
    now rewrite dict_get_set, String.eqb_refl.
  - intros Hset Hk. unfold _initprotect.
    rewrite self_call_run by exact Hset.
    split; [reflexivity |].
    unfold _hasattr in Hk. rewrite getattr_run.
    cbn [__setattr__ setitem snd __dict__].
    rewrite !dict_get_set, String.eqb_refl.
    destruct (String.eqb_spec k ("_" ++ k)) as [E | _].
    + symmetry in E. now apply prefixed_neq in E.
    + now rewrite (dict_get_not_contains _ _ Hk).
Qed.

Lemma getattr_after_setattr_witness :
  __getattr__ "size" (snd (__setattr__ "size" (PyInt 3) backup))
  = (Return (PyInt 3), snd (__setattr__ "size" (PyInt 3) backup))
  /\ fst (_initprotect "size" (PyInt 3) backup) = Return tt
  /\ __getattr__ "size" (snd (_initprotect "size" (PyInt 3) backup))
     = (Return (PyInt 3), snd (_initprotect "size" (PyInt 3) backup)).
Proof.
  destruct (getattr_after_setattr "size" (PyInt 3) backup) as [H1 H2].
  split; [exact H1 | apply H2; reflexivity].
Defined.



Section RenameStored.

Variable type_dir : list (string * bool).


(** X10.  On an instance none of whose keys is the name of a method,
    renaming a stored entry that is not forbidden, to a name that is
    not the name of a method, moves it: the call returns without
    printing, the old key is gone, the new key holds the value and
    every other key holds what it held.  When both names are the same
    the entry is gone. *)
Theorem updateattr_moves_stored (oldname newname : string) (v : value)
  (s : instance) :
  unshadowed s -> not_a_method newname ->
  is_forbidden type_dir oldname s = false ->
  dict_get (__dict__ s) oldname = Some v ->
  fst (_updateattr type_dir oldname newname s) = Return tt
  /\ (forall k : string,
        dict_get (__dict__ (snd (_updateattr type_dir oldname newname s))) k
        = if String.eqb k oldname then None
          else if String.eqb k newname then Some v
               else dict_get (__dict__ s) k)
  /\ stdout (snd (_updateattr type_dir oldname newname s)) = stdout s.
Proof.
  intros Hs Hnew Hforb Hv.
  assert (Hold : not_a_method oldname).
  { apply (unshadowed_not_a_method s); [exact Hs |].
    exact (dict_get_contains _ _ _ Hv). }
  assert (Hread : __getattr__ oldname s = (Return v, s))
    by now rewrite getattr_run, Hv.
  rewrite (updateattr_run type_dir _ newname _ _ _ Hs Hold Hnew Hread).
  cbn [fst snd]. unfold delattr_step.
  rewrite (is_forbidden_indep type_dir oldname _ s), Hforb.
  cbn [__dict__ stdout].
  rewrite dict_contains_set, (dict_get_contains _ _ _ Hv), orb_true_r.
  cbn [__dict__ stdout]. repeat split.
  intros k. now rewrite dict_get_remove, dict_get_set.
Qed.

(** X11.  On an instance none of whose keys is the name of a method,
    and for two names that are not names of methods, renaming a
    forbidden entry copies it: the value found under the old name, or
    under its protected spelling, is written under the new name, the
    deletion is refused with the unable-to-delete warning, no key is
    removed and the call returns. *)
Theorem updateattr_copies_forbidden (oldname newname : string) (v : value)
  (s : instance) :
  unshadowed s -> not_a_method oldname -> not_a_method newname ->
  is_forbidden type_dir oldname s = true ->
  dict_get (__dict__ s) oldname = Some v
  \/ (dict_get (__dict__ s) oldname = None
      /\ dict_get (__dict__ s) ("_" ++ oldname) = Some v) ->
  fst (_updateattr type_dir oldname newname s) = Return tt
  /\ (forall k : string,
        dict_get (__dict__ (snd (_updateattr type_dir oldname newname s))) k
        = if String.eqb k newname then Some v else dict_get (__dict__ s) k)
  /\ stdout (snd (_updateattr type_dir oldname newname s))
     = (stdout s ++ [DelattrUnableToDelete oldname])%list.
Proof.
  intros Hs Hold Hnew Hforb Hv.
  assert (Hread : __getattr__ oldname s = (Return v, s)).
  { rewrite getattr_run. destruct Hv as [-> | [-> ->]]; reflexivity. }
  rewrite (updateattr_run type_dir _ newname _ _ _ Hs Hold Hnew Hread).
  cbn [fst snd]. unfold delattr_step.
  rewrite (is_forbidden_indep type_dir oldname _ s), Hforb.
  cbn [__dict__ stdout]. repeat split.
  intros k. apply dict_get_set.
Qed.

(** X12.  On an instance none of whose keys is the name of a method,
    and for two names that are not names of methods, renaming a name
    that is stored under its protected spelling only, to a different
    name, copies as well: the value of the protected key is written
    under the new name, the protected key stays, and the failed
    deletion of the old name is printed, not raised. *)
Theorem updateattr_copies_through_fallback (oldname newname : string)
  (v : value) (s : instance) :
  unshadowed s -> not_a_method oldname -> not_a_method newname ->
  oldname <> newname ->
  is_forbidden type_dir oldname s = false ->
  dict_get (__dict__ s) oldname = None ->
  dict_get (__dict__ s) ("_" ++ oldname) = Some v ->
  fst (_updateattr type_dir oldname newname s) = Return tt
  /\ (forall k : string,
        dict_get (__dict__ (snd (_updateattr type_dir oldname newname s))) k
        = if String.eqb k newname then Some v else dict_get (__dict__ s) k)
  /\ stdout (snd (_updateattr type_dir oldname newname s))
     = (stdout s ++ [DelattrWentWrong (KeyError oldname) oldname])%list.
Proof.
  intros Hs Ho Hn Hne Hforb Hold Hpold.
  assert (Hread : __getattr__ oldname s = (Return v, s))
    by now rewrite getattr_run, Hold, Hpold.
  rewrite (updateattr_run type_dir _ newname _ _ _ Hs Ho Hn Hread).
  cbn [fst snd]. unfold delattr_step.
  rewrite (is_forbidden_indep type_dir oldname _ s), Hforb.
  cbn [__dict__ stdout].
  assert (Hout : dict_contains (dict_set (__dict__ s) newname v) oldname
                 = false).
  { unfold dict_contains. rewrite dict_get_set, Hold.
    now destruct (String.eqb_spec oldname newname). }
  rewrite Hout. cbn [__dict__ stdout]. repeat split.
  intros k. apply dict_get_set.
Qed.


End RenameStored.

Lemma updateattr_moves_stored_witness :
  fst (_updateattr MyDataClass_dir "_type" "kind" backup) = Return tt
  /\ (forall k : string,
        dict_get
          (__dict__ (snd (_updateattr MyDataClass_dir "_type" "kind" backup)))
          k
        = if String.eqb k "_type" then None
          else if String.eqb k "kind" then Some (PyString "full")
               else dict_get (__dict__ backup) k)
  /\ stdout (snd (_updateattr MyDataClass_dir "_type" "kind" backup))
     = stdout backup.
Proof.
  apply (updateattr_moves_stored MyDataClass_dir "_type" "kind"
           (PyString "full") backup); reflexivity.
Defined.

Lemma updateattr_copies_forbidden_witness :
  fst (_updateattr MyDataClass_dir "count" "total" backup) = Return tt
  /\ (forall k : string,
        dict_get
          (__dict__ (snd (_updateattr MyDataClass_dir "count" "total" backup)))
          k
        = if String.eqb k "total" then Some (PyString "162")
          else dict_get (__dict__ backup) k)
  /\ stdout (snd (_updateattr MyDataClass_dir "count" "total" backup))
     = (stdout backup ++ [DelattrUnableToDelete "count"])%list.
Proof.
  apply (updateattr_copies_forbidden MyDataClass_dir "count" "total"
           (PyString "162") backup);
    [reflexivity | reflexivity | reflexivity | reflexivity |].
  right. split; reflexivity.
Defined.

Lemma updateattr_copies_through_fallback_witness :
  fst (_updateattr MyDataClass_dir "type" "kind" backup) = Return tt
  /\ (forall k : string,
        dict_get
          (__dict__ (snd (_updateattr MyDataClass_dir "type" "kind" backup)))
          k
        = if String.eqb k "kind" then Some (PyString "full")
          else dict_get (__dict__ backup) k)
  /\ stdout (snd (_updateattr MyDataClass_dir "type" "kind" backup))
     = (stdout backup ++ [DelattrWentWrong (KeyError "type") "type"])%list.
Proof.
  apply (updateattr_copies_through_fallback MyDataClass_dir "type" "kind"
           (PyString "full") backup);
    [reflexivity | reflexivity | reflexivity | discriminate
    | reflexivity | reflexivity | reflexivity].
Defined.


(* ================================================================= *)
(** ** Repeated and whole calls of [protect] and [unprotect] *)

Section Repeated.

Variable type_dir : list (string * bool).

(** X16.  Protecting twice is protecting once: for a name without
    leading or trailing underscores whose protected spelling is not the
    name of a method, on an instance none of whose keys is the name of
    a method, a second [protect] of that name changes nothing, neither
    the dictionary nor what was printed. *)
Theorem protect_idempotent (n : string) (s : instance) :
  plain n ->
  unshadowed s ->
  not_a_method ("_" ++ n) ->
  protect type_dir [n] (snd (protect type_dir [n] s))
  = (Return tt, snd (protect type_dir [n] s)).
Proof.
  intros Hplain Hs Hnew. rewrite !protect_one.
  destruct (negb (is_forbidden type_dir n s)
            && _hasattr (strip_underscores n) s) eqn:Hguard.
  - apply andb_prop in Hguard as [Hforb Hunp].
    apply negb_true_iff in Hforb.
    unfold _hasattr in Hunp. rewrite Hplain in Hunp.
    destruct (dict_contains_get _ _ Hunp) as [v Hv].
    rewrite (protect_arg_moves type_dir n n s v Hs Hnew Hplain
               (plain_undo n Hplain) Hforb Hv).
    cbn [snd]. apply protect_arg_skips.
    + exact (unshadowed_remove _ n (stdout s)
               (unshadowed_set s ("_" ++ n) v (stdout s) Hs Hnew)).
    + unfold _hasattr. rewrite Hplain. cbn [__dict__].
      rewrite dict_contains_remove, String.eqb_refl.
      apply andb_false_r.
  - rewrite (protect_arg_skips type_dir n s Hs Hguard). cbn [snd].
    exact (protect_arg_skips type_dir n s Hs Hguard).
Qed.

(** X17.  The other round trip.  On an instance none of whose keys is
    the name of a method, a name without leading or trailing
    underscores that is not the name of a method, is not forbidden and
    is stored under its protected spelling only, as [__init__] stores
    it, is moved to its plain spelling by [unprotect] and back by
    [protect]; afterwards every key holds what it held before
    [unprotect], and nothing was printed. *)
Theorem unprotect_protect_round_trip (n : string) (v : value)
  (s : instance) :
  plain n ->
  unshadowed s ->
  not_a_method n ->
  is_forbidden type_dir n s = false ->
  dict_get (__dict__ s) ("_" ++ n) = Some v ->
  dict_get (__dict__ s) n = None ->
  exists s1 s2 : instance,
    unprotect type_dir [n] s = (Return tt, s1)
    /\ dict_get (__dict__ s1) n = Some v
    /\ dict_get (__dict__ s1) ("_" ++ n) = None
    /\ protect type_dir [n] s1 = (Return tt, s2)
    /\ (forall k : string,
          dict_get (__dict__ s2) k = dict_get (__dict__ s) k)
    /\ stdout s2 = stdout s.
Proof.
  intros Hplain Hs Hnm Hforb Hpn Hn.
  assert (Hpm : not_a_method ("_" ++ n)).
  { apply (unshadowed_not_a_method s); [exact Hs |].
    exact (dict_get_contains _ _ _ Hpn). }
  pose proof (unprotect_arg_moves type_dir n s v Hs Hnm Hplain Hforb Hpn)
    as Hu.
  rewrite <- unprotect_one in Hu.
  set (s1 := Instance (dict_remove (dict_set (__dict__ s) n v) ("_" ++ n))
                      (stdout s)) in *.
  assert (Hs1 : unshadowed s1)
    by exact (unshadowed_remove _ ("_" ++ n) (stdout s)
                (unshadowed_set s n v (stdout s) Hs Hnm)).
  assert (Hs1n : dict_get (__dict__ s1) n = Some v).
  { unfold s1. cbn [__dict__].
    rewrite dict_get_remove, dict_get_set, String.eqb_refl.
    destruct (String.eqb_spec n ("_" ++ n)) as [E | _]; [| reflexivity].
    symmetry in E. now apply prefixed_neq in E. }
  assert (Hs1p : dict_get (__dict__ s1) ("_" ++ n) = None).
  { unfold s1. cbn [__dict__].
    now rewrite dict_get_remove, String.eqb_refl. }
  pose proof (protect_arg_moves type_dir n n s1 v Hs1 Hpm Hplain
                (plain_undo n Hplain)
                (eq_trans (is_forbidden_indep type_dir n s1 s) Hforb)
                Hs1n) as Hp.
  rewrite <- protect_one in Hp.
  exists s1. eexists.
  split; [exact Hu |]. split; [exact Hs1n |]. split; [exact Hs1p |].
  split; [exact Hp |]. split; [| reflexivity].
  intros k. unfold s1. cbn [__dict__].
  repeat (rewrite dict_get_remove || rewrite dict_get_set).
  destruct (String.eqb_spec k n) as [-> | Hk1]; [now rewrite Hn |].
  destruct (String.eqb_spec k ("_" ++ n)) as [-> | Hk2];
    [now rewrite Hpn | reflexivity].
Qed.

End Repeated.

Lemma protect_idempotent_witness :
  protect MyDataClass_dir ["type"]
    (snd (protect MyDataClass_dir ["type"] backup_unprotected))
  = (Return tt, snd (protect MyDataClass_dir ["type"] backup_unprotected)).
Proof.
  apply (protect_idempotent MyDataClass_dir "type" backup_unprotected);
    reflexivity.
Defined.

Lemma unprotect_protect_round_trip_witness :
  exists s1 s2 : instance,
    unprotect MyDataClass_dir ["type"] backup = (Return tt, s1)
    /\ dict_get (__dict__ s1) "type" = Some (PyString "full")
    /\ dict_get (__dict__ s1) "_type" = None
    /\ protect MyDataClass_dir ["type"] s1 = (Return tt, s2)
    /\ (forall k : string,
          dict_get (__dict__ s2) k = dict_get (__dict__ backup) k)
    /\ stdout s2 = stdout backup.
Proof.
  apply (unprotect_protect_round_trip MyDataClass_dir "type"
           (PyString "full") backup); reflexivity.
Defined.

Section WholeCalls.

Variable type_dir : list (string * bool).

(** One iteration of [protect], key by key. *)
Lemma protect_arg_lookup (arg : string) (s : instance) :
  unshadowed s ->
  usable (undo_protected_name_prefix arg) ->
  fst (protect_arg type_dir arg s) = Return tt
  /\ unshadowed (snd (protect_arg type_dir arg s))
  /\ forall k : string,
       dict_get (__dict__ (snd (protect_arg type_dir arg s))) k =
       if negb (is_forbidden type_dir arg s)
          && dict_contains (__dict__ s) (undo_protected_name_prefix arg)
       then
         if String.eqb k (undo_protected_name_prefix arg) then None
         else if String.eqb k ("_" ++ undo_protected_name_prefix arg)
              then dict_get (__dict__ s) (undo_protected_name_prefix arg)
              else dict_get (__dict__ s) k
       else dict_get (__dict__ s) k.
Proof.
  intros Hs [Hwf [Hold Hnew]].
  pose proof (well_formed_key_strip arg Hwf) as Hstrip.
  destruct (is_forbidden type_dir arg s) eqn:Hforb; cbn [negb andb].
  - rewrite protect_arg_skips; [now repeat split | exact Hs |].
    now rewrite Hforb.
  - destruct (dict_contains (__dict__ s) (undo_protected_name_prefix arg))
      eqn:Hin.
    + destruct (dict_contains_get _ _ Hin) as [v Hv].
      rewrite (protect_arg_moves type_dir arg _ s v Hs Hnew Hstrip eq_refl
                 Hforb Hv).
      cbn [fst snd __dict__]. split; [reflexivity |]. split.
      * exact (unshadowed_remove _ _ (stdout s)
                 (unshadowed_set s _ v (stdout s) Hs Hnew)).
      * intros k. now rewrite dict_get_remove, dict_get_set, Hv.
    + rewrite protect_arg_skips; [now repeat split | exact Hs |].
      unfold _hasattr. rewrite Hstrip, Hin. apply andb_false_r.
Qed.

(** One iteration of [unprotect] on a usable name, key by key. *)
Lemma unprotect_arg_lookup (m : string) (s : instance) :
  unshadowed s ->
  usable m ->
  _hasattr ("__" ++ m) s = false ->
  fst (unprotect_arg type_dir m s) = Return tt
  /\ unshadowed (snd (unprotect_arg type_dir m s))
  /\ forall k : string,
       dict_get (__dict__ (snd (unprotect_arg type_dir m s))) k =
       if negb (is_forbidden type_dir m s)
          && dict_contains (__dict__ s) ("_" ++ m)
       then
         if String.eqb k ("_" ++ m) then None
         else if String.eqb k m then dict_get (__dict__ s) ("_" ++ m)
              else dict_get (__dict__ s) k
       else dict_get (__dict__ s) k.
Proof.
  intros Hs [Hplain [Hnm Hpm]] H2.
  destruct (is_forbidden type_dir m s) eqn:Hforb; cbn [negb andb].
  - rewrite unprotect_arg_skips; [now repeat split | exact Hs |].
    now rewrite Hforb.
  - destruct (dict_contains (__dict__ s) ("_" ++ m)) eqn:Hin.
    + destruct (dict_contains_get _ _ Hin) as [v Hv].
      rewrite (unprotect_arg_moves type_dir m s v Hs Hnm Hplain Hforb Hv).
      cbn [fst snd __dict__]. split; [reflexivity |]. split.
      * exact (unshadowed_remove _ _ (stdout s)
                 (unshadowed_set s _ v (stdout s) Hs Hnm)).
      * intros k. now rewrite dict_get_remove, dict_get_set, Hv.
    + rewrite unprotect_arg_skips; [now repeat split | exact Hs |].
      unfold is_protected.
      rewrite (plain_no_underscore _ Hplain), Hplain, H2.
      unfold _hasattr. rewrite Hin. apply andb_false_r.
Qed.

Lemma plain_eqb_prefixed (n m : string) :
  plain n -> String.eqb n ("_" ++ m) = false.
Proof.
  intros H. apply String.eqb_neq. now apply plain_neq_prefixed.
Qed.

Lemma prefixed_eqb_plain (n m : string) :
  plain m -> String.eqb ("_" ++ n) m = false.
Proof.
  intros H. apply String.eqb_neq. intros E. symmetry in E.
  now apply plain_neq_prefixed in E.
Qed.

Lemma prefixed_eqb (n m : string) :
  String.eqb ("_" ++ n) ("_" ++ m) = String.eqb n m.
Proof.
  destruct (String.eqb_spec n m) as [-> | H].
  - apply String.eqb_refl.
  - apply String.eqb_neq. intros E. now apply prefixed_inj in E.
Qed.

(** The loop of [protect] over names that are usable or usable behind
    one underscore, seen from a plain name [n]. *)
Lemma protect_loop_lookup (l : list string) (s : instance) (n : string) :
  Forall (fun a => usable (undo_protected_name_prefix a)) l ->
  unshadowed s ->
  plain n ->
  let s' := snd (for_each l (protect_arg type_dir) s) in
  let hit := existsb (fun a => String.eqb n (undo_protected_name_prefix a)) l
             && negb (is_forbidden type_dir n s) in
  fst (for_each l (protect_arg type_dir) s) = Return tt
  /\ dict_get (__dict__ s') n
     = (if hit then None else dict_get (__dict__ s) n)
  /\ dict_get (__dict__ s') ("_" ++ n)
     = (if hit
        then match dict_get (__dict__ s) n with
             | Some v => Some v
             | None => dict_get (__dict__ s) ("_" ++ n)
             end
        else dict_get (__dict__ s) ("_" ++ n)).
Proof.
  intros Hl Hs Hn. revert s Hs.
  induction l as [| a l IH]; intros s Hs; cbn zeta.
  - now repeat split.
  - inversion Hl as [| ? ? Ha Hrest]; subst.
    destruct (protect_arg_lookup a s Hs Ha) as [Hret [Hs' Hlook]].
    rewrite for_each_cons by exact Hret.
    specialize (IH Hrest (snd (protect_arg type_dir a s)) Hs').
    cbn zeta in IH. destruct IH as [IH0 [IH1 IH2]].
    split; [exact IH0 |].
    rewrite IH1, IH2. clear IH0 IH1 IH2.
    rewrite (is_forbidden_indep type_dir n _ s).
    rewrite !Hlook.
    cbn [existsb].
    destruct Ha as [Ha _].
    set (m := undo_protected_name_prefix a) in *.
    rewrite (plain_eqb_prefixed n m Hn), (prefixed_eqb_plain n m Ha).
    rewrite prefixed_eqb.
    assert (Hfa : String.eqb n m = true ->
                  is_forbidden type_dir a s = is_forbidden type_dir n s).
    { intros E. apply String.eqb_eq in E.
      apply is_forbidden_strip.
      rewrite (well_formed_key_strip a Ha). fold m.
      now rewrite <- E, Hn. }
    unfold dict_contains.
    destruct (String.eqb n m) eqn:Enm.
    + rewrite (Hfa eq_refl). apply String.eqb_eq in Enm. subst m.
      rewrite <- Enm. cbn [orb andb].
      destruct (is_forbidden type_dir n s); cbn [negb andb];
        [rewrite andb_false_r; now split |].
      rewrite andb_true_r.
      destruct (dict_get (__dict__ s) n) as [v |] eqn:Ev.
      * split;
          now destruct (existsb
                          (fun a0 => String.eqb n
                                       (undo_protected_name_prefix a0)) l).
      * split;
          now destruct (existsb
                          (fun a0 => String.eqb n
                                       (undo_protected_name_prefix a0)) l).
    + cbn [orb].
      destruct (negb (is_forbidden type_dir a s)),
        (dict_get (__dict__ s) m); cbn [andb]; split; reflexivity.
Qed.

(** The loop of [unprotect] over usable names, seen from a plain
    name. *)
Lemma unprotect_loop_lookup (l : list string) (s : instance) (n : string) :
  Forall usable l ->
  unshadowed s ->
  (forall a, In a l -> _hasattr ("__" ++ a) s = false) ->
  plain n ->
  let s' := snd (for_each l (unprotect_arg type_dir) s) in
  let hit := existsb (String.eqb n) l
             && negb (is_forbidden type_dir n s) in
  fst (for_each l (unprotect_arg type_dir) s) = Return tt
  /\ dict_get (__dict__ s') ("_" ++ n)
     = (if hit then None else dict_get (__dict__ s) ("_" ++ n))
  /\ dict_get (__dict__ s') n
     = (if hit
        then match dict_get (__dict__ s) ("_" ++ n) with
             | Some v => Some v
             | None => dict_get (__dict__ s) n
             end
        else dict_get (__dict__ s) n).
Proof.
  intros Hl Hs H2 Hn. revert s Hs H2.
  induction l as [| m l IH]; intros s Hs H2; cbn zeta.
  - now repeat split.
  - inversion Hl as [| ? ? Hm Hrest]; subst.
    assert (H2m : _hasattr ("__" ++ m) s = false) by (apply H2; now left).
    destruct (unprotect_arg_lookup m s Hs Hm H2m) as [Hret [Hs' Hlook]].
    rewrite for_each_cons by exact Hret.
    destruct Hm as [Hm _].
    assert (H2' : forall a, In a l ->
                  _hasattr ("__" ++ a)
                    (snd (unprotect_arg type_dir m s)) = false).
    { intros a Ha. unfold _hasattr, dict_contains.
      rewrite Hlook.
      assert (Hpa : plain a).
      { rewrite Forall_forall in Hrest. now destruct (Hrest a Ha). }
      change ("__" ++ a) with ("_" ++ "_" ++ a).
      rewrite prefixed_eqb, (prefixed_eqb_plain ("_" ++ a) m Hm).
      rewrite (prefixed_eqb_plain a m Hm).
      specialize (H2 a (or_intror Ha)).
      unfold _hasattr, dict_contains in H2.
      change ("__" ++ a) with ("_" ++ "_" ++ a) in H2.
      now destruct (negb (is_forbidden type_dir m s)
                    && dict_contains (__dict__ s) ("_" ++ m)). }
    specialize (IH Hrest (snd (unprotect_arg type_dir m s)) Hs' H2').
    cbn zeta in IH. destruct IH as [IH0 [IH1 IH2]].
    split; [exact IH0 |].
    rewrite IH1, IH2. clear IH0 IH1 IH2.
    rewrite (is_forbidden_indep type_dir n _ s).
    rewrite !Hlook.
    cbn [existsb].
    rewrite (plain_eqb_prefixed n m Hn), (prefixed_eqb_plain n m Hm).
    rewrite prefixed_eqb.
    unfold dict_contains.
    destruct (String.eqb n m) eqn:Enm.
    + apply String.eqb_eq in Enm. subst m. cbn [orb andb].
      destruct (is_forbidden type_dir n s); cbn [negb andb];
        [rewrite andb_false_r; now split |].
      rewrite andb_true_r.
      destruct (dict_get (__dict__ s) ("_" ++ n)) as [v |] eqn:Ev;
        split; now destruct (existsb (String.eqb n) l).
    + cbn [orb].
      destruct (negb (is_forbidden type_dir m s)),
        (dict_get (__dict__ s) ("_" ++ m)); cbn [andb]; split; reflexivity.
Qed.

End WholeCalls.

Lemma existsb_undo_plain (n : string) (names : list string) :
  Forall usable names ->
  existsb (fun a => String.eqb n (undo_protected_name_prefix a)) names
  = existsb (String.eqb n) names.
Proof.
  induction 1 as [| a l [Ha _] _ IH]; [reflexivity |].
  cbn [existsb]. now rewrite IH, (plain_undo a Ha).
Qed.

Section NamedCalls.

Variable type_dir : list (string * bool).

(** X18.  [protect] with names, on an instance none of whose keys is
    the name of a method, the names being without leading or trailing
    underscores and, like their protected spellings, not names of
    methods: the call returns; a name of the list that is not forbidden
    ends up protected, its plain key absent and its protected key
    holding the value the plain key held (or, if the plain key was
    absent, what the protected key held already); the two keys of any
    other name without leading or trailing underscores hold what they
    held. *)
Theorem protect_named (names : list string) (s : instance) (n : string) :
  names <> [] ->
  Forall usable names ->
  unshadowed s ->
  plain n ->
  let s' := snd (protect type_dir names s) in
  let moved := existsb (String.eqb n) names
               && negb (is_forbidden type_dir n s) in
  fst (protect type_dir names s) = Return tt
  /\ dict_get (__dict__ s') n
     = (if moved then None else dict_get (__dict__ s) n)
  /\ dict_get (__dict__ s') ("_" ++ n)
     = (if moved
        then match dict_get (__dict__ s) n with
             | Some v => Some v
             | None => dict_get (__dict__ s) ("_" ++ n)
             end
        else dict_get (__dict__ s) ("_" ++ n)).
Proof.
  intros Hne Hnames Hs Hn. cbn zeta.
  rewrite protect_run.
  destruct names as [| a names]; [contradiction |].
  rewrite <- (existsb_undo_plain n (a :: names) Hnames).
  apply (protect_loop_lookup type_dir (a :: names) s n);
    [| exact Hs | exact Hn].
  apply Forall_forall. intros x Hx.
  rewrite Forall_forall in Hnames. specialize (Hnames x Hx).
  now rewrite (plain_undo x (proj1 Hnames)).
Qed.

(** X19.  [protect] without names, on an instance whose keys are
    usable names or usable names behind one underscore (a usable name
    has no leading or trailing underscore and neither it nor its
    protected spelling is the name of a method): the call returns,
    every entry that is not forbidden ends up protected with its value,
    and the entries of forbidden names are as they were. *)
Theorem protect_all (s : instance) (n : string) :
  keys_usable s ->
  plain n ->
  let s' := snd (protect type_dir [] s) in
  fst (protect type_dir [] s) = Return tt
  /\ dict_get (__dict__ s') n
     = (if is_forbidden type_dir n s then dict_get (__dict__ s) n
        else None)
  /\ dict_get (__dict__ s') ("_" ++ n)
     = (if is_forbidden type_dir n s then dict_get (__dict__ s) ("_" ++ n)
        else match dict_get (__dict__ s) n with
             | Some v => Some v
             | None => dict_get (__dict__ s) ("_" ++ n)
             end).
Proof.
  intros Hkeys Hn. cbn zeta.
  rewrite protect_run.
  assert (Hl : Forall (fun a => usable (undo_protected_name_prefix a))
                 (dict_keys (__dict__ s))).
  { apply Forall_forall. intros k Hk. apply Hkeys.
    now apply dict_contains_keys. }
  destruct (protect_loop_lookup type_dir _ s n Hl
              (keys_usable_unshadowed s Hkeys) Hn) as [H0 [H1 H2]].
  cbn zeta in H1, H2. split; [exact H0 |].
  rewrite H1, H2. clear H0 H1 H2.
  destruct (is_forbidden type_dir n s); cbn [negb];
    [rewrite andb_false_r; now split |].
  rewrite andb_true_r.
  destruct (existsb (fun a => String.eqb n (undo_protected_name_prefix a))
              (dict_keys (__dict__ s))) eqn:Hhit; [now split |].
  assert (Hnone : dict_get (__dict__ s) n = None).
  { apply dict_get_not_contains.
    destruct (dict_contains (__dict__ s) n) eqn:Hin; [| reflexivity].
    apply dict_contains_keys in Hin.
    assert (Hex : existsb
                    (fun a => String.eqb n (undo_protected_name_prefix a))
                    (dict_keys (__dict__ s)) = true).
    { apply existsb_exists. exists n. split; [exact Hin |].
      rewrite (plain_undo n Hn). apply String.eqb_refl. }
    congruence. }
  rewrite Hnone. now split.
Qed.

(** X20.  [unprotect] with names, on an instance none of whose keys is
    the name of a method, the names being without leading or trailing
    underscores, like their protected spellings not names of methods,
    and none of them stored behind two underscores: the call returns; a
    name of the list that is not forbidden ends up unprotected, its
    protected key absent and its plain key holding the value the
    protected key held (or, if that key was absent, what the plain key
    held already); the two keys of any other name without leading or
    trailing underscores hold what they held. *)
Theorem unprotect_named (names : list string) (s : instance) (n : string) :
  names <> [] ->
  Forall usable names ->
  unshadowed s ->
  (forall a : string, In a names -> _hasattr ("__" ++ a) s = false) ->
  plain n ->
  let s' := snd (unprotect type_dir names s) in
  let moved := existsb (String.eqb n) names
               && negb (is_forbidden type_dir n s) in
  fst (unprotect type_dir names s) = Return tt
  /\ dict_get (__dict__ s') ("_" ++ n)
     = (if moved then None else dict_get (__dict__ s) ("_" ++ n))
  /\ dict_get (__dict__ s') n
     = (if moved
        then match dict_get (__dict__ s) ("_" ++ n) with
             | Some v => Some v
             | None => dict_get (__dict__ s) n
             end
        else dict_get (__dict__ s) n).
Proof.
  intros Hne Hnames Hs H2 Hn. cbn zeta.
  rewrite unprotect_run.
  destruct names as [| a names]; [contradiction |].
  exact (unprotect_loop_lookup type_dir (a :: names) s n Hnames Hs H2 Hn).
Qed.

End NamedCalls.

Lemma protect_named_witness :
  let s' := snd (protect MyDataClass_dir ["type"; "count"]
                   backup_unprotected) in
  let moved := existsb (String.eqb "type") ["type"; "count"]
               && negb (is_forbidden MyDataClass_dir "type"
                          backup_unprotected) in
  fst (protect MyDataClass_dir ["type"; "count"] backup_unprotected)
  = Return tt
  /\ dict_get (__dict__ s') "type"
     = (if moved then None
        else dict_get (__dict__ backup_unprotected) "type")
  /\ dict_get (__dict__ s') "_type"
     = (if moved
        then match dict_get (__dict__ backup_unprotected) "type" with
             | Some v => Some v
             | None => dict_get (__dict__ backup_unprotected) "_type"
             end
        else dict_get (__dict__ backup_unprotected) "_type").
Proof.
  apply (protect_named MyDataClass_dir ["type"; "count"]
           backup_unprotected "type");
    [discriminate | repeat constructor | reflexivity | reflexivity].
Defined.

Lemma backup_unprotected_keys_usable : keys_usable backup_unprotected.
Proof.
  intros k Hk. apply dict_contains_keys in Hk. simpl in Hk.
  destruct Hk as [<- | [<- | [<- | [<- | [<- | []]]]]];
    repeat split; reflexivity.
Qed.

Lemma protect_all_witness :
  let s' := snd (protect MyDataClass_dir [] backup_unprotected) in
  fst (protect MyDataClass_dir [] backup_unprotected) = Return tt
  /\ dict_get (__dict__ s') "type"
     = (if is_forbidden MyDataClass_dir "type" backup_unprotected
        then dict_get (__dict__ backup_unprotected) "type"
        else None)
  /\ dict_get (__dict__ s') "_type"
     = (if is_forbidden MyDataClass_dir "type" backup_unprotected
        then dict_get (__dict__ backup_unprotected) "_type"
        else match dict_get (__dict__ backup_unprotected) "type" with
             | Some v => Some v
             | None => dict_get (__dict__ backup_unprotected) "_type"
             end).
Proof.
  apply (protect_all MyDataClass_dir backup_unprotected "type");
    [exact backup_unprotected_keys_usable | reflexivity].
Defined.

Lemma unprotect_named_witness :
  let s' := snd (unprotect MyDataClass_dir ["type"; "count"] backup) in
  let moved := existsb (String.eqb "type") ["type"; "count"]
               && negb (is_forbidden MyDataClass_dir "type" backup) in
  fst (unprotect MyDataClass_dir ["type"; "count"] backup) = Return tt
  /\ dict_get (__dict__ s') "_type"
     = (if moved then None else dict_get (__dict__ backup) "_type")
  /\ dict_get (__dict__ s') "type"
     = (if moved
        then match dict_get (__dict__ backup) "_type" with
             | Some v => Some v
             | None => dict_get (__dict__ backup) "type"
             end
        else dict_get (__dict__ backup) "type").
Proof.
  apply (unprotect_named MyDataClass_dir ["type"; "count"] backup "type");
    [discriminate | repeat constructor | reflexivity | | reflexivity].
  intros a [<- | [<- | []]]; reflexivity.
Defined.
